(** * managejason: the Node.js JSON loopback server

    A shallow embedding of [examples/example2_http_server_nodejs.js]:
    the in-memory [dataStore], the classifier [categorizeData], the request
    handler passed to [http.createServer] together with the ['data'] and
    ['end'] listeners it registers, and the top-level [server.listen] call.

    Conventions.
    - A JavaScript string is the list of its UTF-16 code units, so that
      [.length] is [length].
    - A [Buffer] is the list of its bytes.
    - The runtime builtins the handler calls on request data,
      [Buffer.prototype.toString], [JSON.parse] and [JSON.stringify], are
      parameters of the model (class [Runtime]).  Module [Builtins] gives
      executable instances used for the concrete examples.
    - The Node event loop is the environment: it feeds the server a sequence
      of inputs (a new request, a ['data'] event, an ['end'] event).  Every
      listener runs to completion before the next input is taken. *)

From Stdlib Require Import ZArith QArith List String Ascii Lia Bool DecimalString.
From stdpp Require Import base decidable list.
Import ListNotations.

Set Warnings "-register-all".

Local Open Scope Z_scope.

(** ** JavaScript values *)

Module JS.

(** UTF-16 code units. *)
Definition jsstring : Type := list N.

(** An ASCII literal of the source as a JavaScript string. *)
Definition js (s : string) : jsstring :=
  List.map N_of_ascii (list_ascii_of_string s).

(** [a === b] on strings. *)
Definition strict_eq (a b : jsstring) : bool := bool_decide (a = b).

(** The numbers [JSON.parse] can return: a finite double, kept as the
    rational it is, or an infinity (a literal beyond the range of the
    doubles, such as [1e400]).  Which double a literal is rounded to is
    the parser's business; the server performs no arithmetic on payload
    numbers.  The zero of negative sign is not kept apart from 0: [typeof]
    and [JSON.stringify] treat the two alike. *)
Inductive number : Type :=
| finite (q : Q)
| infinite (negative : bool).

(** The values [JSON.parse] can return.  An object is the list of its own
    enumerable properties. *)
Inductive json : Type :=
| JNull
| JBool (b : bool)
| JNumber (x : number)
| JString (s : jsstring)
| JArray (elems : list json)
| JObject (fields : list (jsstring * json)).

(** The [typeof] operator. *)
Definition typeof (v : json) : jsstring :=
  match v with
  | JString _ => js "string"
  | JNumber _ => js "number"
  | JBool _ => js "boolean"
  | JNull | JArray _ | JObject _ => js "object"
  end.

Definition Array_isArray (v : json) : bool :=
  match v with
  | JArray _ => true
  | _ => false
  end.

(** Property lookup [o.k] on an object value. *)
Fixpoint assoc (k : jsstring) (fields : list (jsstring * json)) : option json :=
  match fields with
  | [] => None
  | (k', v) :: rest => if strict_eq k k' then Some v else assoc k rest
  end.

Definition get (k : jsstring) (v : json) : option json :=
  match v with
  | JObject fields => assoc k fields
  | _ => None
  end.

Definition num (z : Z) : json := JNumber (finite (inject_Z z)).

End JS.
Import JS.

(** ** The classifier *)

(** [function categorizeData(data)], lines 34-40. *)
Definition categorizeData (data : json) : jsstring :=
  if strict_eq (typeof data) (js "string") then js "text"
  else if strict_eq (typeof data) (js "number") then js "numeric"
  else if Array_isArray data then js "array"
  else if strict_eq (typeof data) (js "object") then js "object"
  else js "unknown".

(** ** The runtime interface *)

(** A [Buffer]: the raw bytes of one body chunk. *)
Definition Buffer : Type := list Byte.byte.

(** How an evaluation ends: normally with a value, or by throwing an error
    (kept as its [message]). *)
Inductive completion (A : Type) : Type :=
| Normal (a : A)
| Throw (message : jsstring).
Arguments Normal {A} a.
Arguments Throw {A} message.

(** The builtins applied to request data.  [Buffer_toString] is
    [chunk.toString()] (UTF-8 decoding); [JSON_parse] is [JSON.parse],
    which throws a [SyntaxError] on malformed text; [JSON_stringify
    space v] is [JSON.stringify(v, null, space)], with [space = 0] for
    the one-argument call, which throws a [RangeError] when the nesting
    of [v] exhausts the call stack. *)
Class Runtime : Type := {
  Buffer_toString : Buffer -> jsstring;
  JSON_parse : jsstring -> completion json;
  JSON_stringify : nat -> json -> completion jsstring
}.

(** ** Server state *)

(** [const LOOPBACK_HOST], [const PORT], lines 17-18. *)
Definition LOOPBACK_HOST : jsstring := js "127.0.0.1".
Definition PORT : Z := 3000.

(** [dataStore.stats], lines 23-28.  The counters are JavaScript numbers
    that are only ever incremented by one; they are unbounded integers
    here. *)
Record Stats : Type := {
  totalRequests : Z;
  textItems : Z;
  numericItems : Z;
  objectItems : Z
}.

(** The [item] object built at lines 97-102. *)
Record Item : Type := {
  item_id : Z;
  item_type : jsstring;
  item_data : json;
  item_timestamp : jsstring
}.

(** [dataStore], lines 21-29. *)
Record DataStore : Type := {
  items : list Item;
  stats : Stats
}.

Definition dataStore : DataStore :=
  {| items := [];
     stats := {| totalRequests := 0; textItems := 0;
                 numericItems := 0; objectItems := 0 |} |}.

(** The part of [req] the handler reads. *)
Record IncomingMessage : Type := {
  method : jsstring;
  url : jsstring
}.

(** What [res.end] was given: nothing, or the text [JSON.stringify]
    returned, recorded as the object that was serialised.  An envelope
    whose members are all strings ([too_large_envelope],
    [invalid_envelope], [not_found_envelope]) always serialises; where the
    object holds request data the handler's call of [JSON_stringify] is
    part of the model, because it can throw before [res.end] is
    reached. *)
Definition payload : Type := option json.

(** [res].  [head] is the status code written by [writeHead], if any;
    [ended] lists the arguments of every call of [res.end], oldest
    first. *)
Record ServerResponse : Type := {
  headers : list (jsstring * jsstring);
  head : option Z;
  ended : list payload
}.

Definition fresh_response : ServerResponse :=
  {| headers := []; head := None; ended := [] |}.

(** One request/response pair together with the variables its listeners
    close over: [body] (line 74), whether the ['data'] and ['end']
    listeners are registered (lines 77 and 91), and whether
    [req.connection.destroy()] was called. *)
Record Exchange : Type := {
  req : IncomingMessage;
  res : ServerResponse;
  body : jsstring;
  listening : bool;
  destroyed : bool
}.

(** [const MAX_BODY_SIZE = 1024 * 1024], line 75. *)
Definition MAX_BODY_SIZE : Z := 1024 * 1024.

(** ** Listeners as state-and-exception computations *)

(** What a listener can touch: the shared [dataStore] and the exchange it
    belongs to. *)
Record heap : Type := {
  h_store : DataStore;
  h_ex : Exchange
}.

(** A listener body: it may mutate the heap and may end by throwing; what
    it mutated before throwing stays mutated. *)
Definition script (A : Type) : Type := heap -> completion A * heap.

#[global] Instance script_ret : MRet script :=
  fun A a h => (Normal a, h).

#[global] Instance script_bind : MBind script :=
  fun A B k m h =>
    match m h with
    | (Normal a, h') => k a h'
    | (Throw e, h') => (Throw e, h')
    end.

(** [try { m } catch (error) { handler(error.message) }]. *)
Definition try_catch {A} (m : script A) (handler : jsstring -> script A) : script A :=
  fun h =>
    match m h with
    | (Normal a, h') => (Normal a, h')
    | (Throw e, h') => handler e h'
    end.

Definition lift {A} (c : completion A) : script A := fun h => (c, h).
Definition read {A} (f : heap -> A) : script A := fun h => (Normal (f h), h).
Definition update (f : heap -> heap) : script unit := fun h => (Normal tt, f h).
Definition skip : script unit := mret tt.

(** *** Field updates *)

Definition with_stats (f : Stats -> Stats) (h : heap) : heap :=
  {| h_store := {| items := items (h_store h); stats := f (stats (h_store h)) |};
     h_ex := h_ex h |}.

Definition with_items (f : list Item -> list Item) (h : heap) : heap :=
  {| h_store := {| items := f (items (h_store h)); stats := stats (h_store h) |};
     h_ex := h_ex h |}.

Definition with_res (f : ServerResponse -> ServerResponse) (h : heap) : heap :=
  {| h_store := h_store h;
     h_ex := {| req := req (h_ex h); res := f (res (h_ex h)); body := body (h_ex h);
                listening := listening (h_ex h); destroyed := destroyed (h_ex h) |} |}.

Definition with_body (f : jsstring -> jsstring) (h : heap) : heap :=
  {| h_store := h_store h;
     h_ex := {| req := req (h_ex h); res := res (h_ex h); body := f (body (h_ex h));
                listening := listening (h_ex h); destroyed := destroyed (h_ex h) |} |}.

Definition with_listening (b : bool) (h : heap) : heap :=
  {| h_store := h_store h;
     h_ex := {| req := req (h_ex h); res := res (h_ex h); body := body (h_ex h);
                listening := b; destroyed := destroyed (h_ex h) |} |}.

Definition with_destroyed (b : bool) (h : heap) : heap :=
  {| h_store := h_store h;
     h_ex := {| req := req (h_ex h); res := res (h_ex h); body := body (h_ex h);
                listening := listening (h_ex h); destroyed := b |} |}.

Definition incr_totalRequests (s : Stats) : Stats :=
  {| totalRequests := totalRequests s + 1; textItems := textItems s;
     numericItems := numericItems s; objectItems := objectItems s |}.

Definition incr_textItems (s : Stats) : Stats :=
  {| totalRequests := totalRequests s; textItems := textItems s + 1;
     numericItems := numericItems s; objectItems := objectItems s |}.

Definition incr_numericItems (s : Stats) : Stats :=
  {| totalRequests := totalRequests s; textItems := textItems s;
     numericItems := numericItems s + 1; objectItems := objectItems s |}.

Definition incr_objectItems (s : Stats) : Stats :=
  {| totalRequests := totalRequests s; textItems := textItems s;
     numericItems := numericItems s; objectItems := objectItems s + 1 |}.

(** *** The [http.ServerResponse] methods the handler calls *)

(** The message of Node's [ERR_HTTP_HEADERS_SENT]. *)
Definition ERR_HTTP_HEADERS_SENT (verb : string) : jsstring :=
  js ("Cannot " ++ verb ++ " headers after they are sent to the client").

(** [res.setHeader(name, value)]: refused once the head is written. *)
Definition res_setHeader (name value : jsstring) : script unit :=
  h ← read (fun h => head (res (h_ex h)));
  match h with
  | Some _ => lift (Throw (ERR_HTTP_HEADERS_SENT "set"))
  | None =>
      update (with_res (fun r =>
        {| headers := headers r ++ [(name, value)]; head := head r; ended := ended r |}))
  end.

(** [res.writeHead(statusCode, headers)]: throws if a head was already
    written on this response. *)
Definition res_writeHead (statusCode : Z) (hs : list (jsstring * jsstring)) : script unit :=
  h ← read (fun h => head (res (h_ex h)));
  match h with
  | Some _ => lift (Throw (ERR_HTTP_HEADERS_SENT "write"))
  | None =>
      update (with_res (fun r =>
        {| headers := headers r ++ hs; head := Some statusCode; ended := ended r |}))
  end.

(** [res.end(data)].  Without a preceding [writeHead] the implicit head is
    status 200. *)
Definition res_end (data : payload) : script unit :=
  update (with_res (fun r =>
    {| headers := headers r;
       head := match head r with Some c => Some c | None => Some 200 end;
       ended := ended r ++ [data] |})).

(** *** What is handed to [JSON.stringify] *)

Definition json_of_item (it : Item) : json :=
  JObject [ (js "id", num (item_id it));
            (js "type", JString (item_type it));
            (js "data", item_data it);
            (js "timestamp", JString (item_timestamp it)) ].

Definition json_of_stats (s : Stats) : json :=
  JObject [ (js "totalRequests", num (totalRequests s));
            (js "textItems", num (textItems s));
            (js "numericItems", num (numericItems s));
            (js "objectItems", num (objectItems s)) ].

Definition json_of_dataStore (d : DataStore) : json :=
  JObject [ (js "items", JArray (List.map json_of_item (items d)));
            (js "stats", json_of_stats (stats d)) ].

Definition application_json : list (jsstring * jsstring) :=
  [ (js "Content-Type", js "application/json") ].

(** *** The response bodies

    Each is the object literal handed to [JSON.stringify] at the line
    given. *)

(** Lines 83-86. *)
Definition too_large_envelope : json :=
  JObject [ (js "status", JString (js "error"));
            (js "message", JString (js "Request body too large (max 1MB)")) ].

(** Lines 112-116. *)
Definition stored_envelope (item : Item) : json :=
  JObject [ (js "status", JString (js "success"));
            (js "message", JString (js "JSON data stored via loopback interface"));
            (js "item", json_of_item item) ].

(** Lines 122-126; [error] is [error.message]. *)
Definition invalid_envelope (error : jsstring) : json :=
  JObject [ (js "status", JString (js "error"));
            (js "message", JString (js "Invalid JSON"));
            (js "error", JString error) ].

(** Lines 63-68. *)
Definition listing_envelope (d : DataStore) : json :=
  JObject [ (js "status", JString (js "success"));
            (js "loopback_interface", JString LOOPBACK_HOST);
            (js "port", num PORT);
            (js "data", json_of_dataStore d) ].

(** Lines 134-137. *)
Definition not_found_envelope : json :=
  JObject [ (js "status", JString (js "error"));
            (js "message", JString (js "Endpoint not found")) ].

(** ** The server process *)

(** The process: the shared store, every request/response pair created so
    far (numbered in arrival order), and whether the process is still
    running.  An error that escapes a listener is an uncaught exception,
    which ends the process. *)
Record Server : Type := {
  store : DataStore;
  exchanges : list Exchange;
  alive : bool
}.

(** What the event loop hands to the process.  Events are addressed to an
    exchange by its number; one without listeners ignores them.  The
    model does not assume that an exchange receives no further event once
    a listener has destroyed its socket: the part of the body that was
    already read is still delivered, so a chunk that completes the body is
    followed by ['end'].  Statements over all input sequences hold either
    way. *)
Inductive input : Type :=
| Request (r : IncomingMessage)
| DataEvent (i : nat) (chunk : Buffer)
| EndEvent (i : nat) (now : jsstring).

(** ** The handler and its listeners *)

Section Handler.
Context `{rt : Runtime}.

(** The ['data'] listener, lines 77-89. *)
Definition on_data (chunk : Buffer) : script unit :=
  update (with_body (fun b => b ++ Buffer_toString chunk));;
  b ← read (fun h => body (h_ex h));
  if Z.of_nat (length b) >? MAX_BODY_SIZE then
    res_writeHead 413 application_json;;
    res_end (Some too_large_envelope);;
    update (with_destroyed true)
  else skip.

(** The ['end'] listener, lines 91-128.  [now] is what
    [new Date().toISOString()] returns when the listener runs.  The
    argument of [res.end] is evaluated before the call, so a throw of
    [JSON.stringify] at line 112 leaves the head written and [res.end]
    uncalled.  Of the [console.log] of line 118 only its call of
    [JSON.stringify(jsonData)] is kept: the output goes to standard
    output. *)
Definition on_end (now : jsstring) : script unit :=
  try_catch
    (b ← read (fun h => body (h_ex h));
     jsonData ← lift (JSON_parse b);
     let dataType := categorizeData jsonData in
     n ← read (fun h => length (items (h_store h)));
     let item := {| item_id := Z.of_nat n + 1;
                    item_type := dataType;
                    item_data := jsonData;
                    item_timestamp := now |} in
     update (with_items (fun l => l ++ [item]));;
     (if strict_eq dataType (js "text") then update (with_stats incr_textItems)
      else if strict_eq dataType (js "numeric") then update (with_stats incr_numericItems)
      else if strict_eq dataType (js "object") then update (with_stats incr_objectItems)
      else skip);;
     res_writeHead 201 application_json;;
     lift (JSON_stringify 2 (stored_envelope item));;
     res_end (Some (stored_envelope item));;
     lift (JSON_stringify 0 jsonData);;
     skip)
    (fun error =>
       res_writeHead 400 application_json;;
       res_end (Some (invalid_envelope error))).

(** The callback given to [http.createServer], lines 45-138. *)
Definition requestListener : script unit :=
  update (with_stats incr_totalRequests);;
  res_setHeader (js "Access-Control-Allow-Origin") (js "http://127.0.0.1");;
  res_setHeader (js "Access-Control-Allow-Methods") (js "GET, POST, OPTIONS");;
  res_setHeader (js "Access-Control-Allow-Headers") (js "Content-Type");;
  r ← read (fun h => req (h_ex h));
  if strict_eq (method r) (js "OPTIONS") then
    res_writeHead 200 [];;
    res_end None
  else if strict_eq (method r) (js "GET") && strict_eq (url r) (js "/json") then
    res_writeHead 200 application_json;;
    d ← read h_store;
    lift (JSON_stringify 2 (listing_envelope d));;
    res_end (Some (listing_envelope d))
  else if strict_eq (method r) (js "POST") && strict_eq (url r) (js "/json") then
    update (with_body (fun _ => []));;
    update (with_listening true)
  else
    res_writeHead 404 application_json;;
    res_end (Some not_found_envelope).

(** ** Running the process *)

Definition is_normal {A} (c : completion A) : bool :=
  match c with
  | Normal _ => true
  | Throw _ => false
  end.

Definition new_exchange (r : IncomingMessage) : Exchange :=
  {| req := r; res := fresh_response; body := []; listening := false; destroyed := false |}.

(** Run a listener of exchange [i] on the process state. *)
Definition emit (s : Server) (i : nat) (listener : script unit) : Server :=
  match exchanges s !! i with
  | Some e =>
      if listening e then
        let '(c, h) := listener {| h_store := store s; h_ex := e |} in
        {| store := h_store h;
           exchanges := <[i := h_ex h]> (exchanges s);
           alive := is_normal c |}
      else s
  | None => s
  end.

Definition step (s : Server) (i : input) : Server :=
  if alive s then
    match i with
    | Request r =>
        let '(c, h) := requestListener {| h_store := store s; h_ex := new_exchange r |} in
        {| store := h_store h;
           exchanges := exchanges s ++ [h_ex h];
           alive := is_normal c |}
    | DataEvent i chunk => emit s i (on_data chunk)
    | EndEvent i now => emit s i (on_end now)
    end
  else s.

Definition run (s : Server) (ins : list input) : Server := fold_left step ins s.

(** The process right after start-up. *)
Definition boot : Server :=
  {| store := dataStore; exchanges := []; alive := true |}.

End Handler.

(** ** Start-up *)

(** The calls the script makes at top level that reach the operating
    system: [server.listen(PORT, LOOPBACK_HOST, ...)] (line 141) and
    [process.on('SIGINT', ...)] (line 152). *)
Inductive action : Type :=
| Listen (port : Z) (host : jsstring)
| OnSignal (signal : jsstring).

Definition main : list action :=
  [ Listen PORT LOOPBACK_HOST; OnSignal (js "SIGINT") ].

(** ** Executable builtins *)

(** An instance of [Runtime] to run the model on concrete requests: a
    UTF-8 decoder that replaces ill-formed sequences by U+FFFD, a
    recursive-descent reader for the JSON grammar, and a serialiser.  The
    reader keeps a literal's exact value unless it is beyond the doubles
    (it does not round to the nearest double), lists the members of an
    object in the order of their first occurrence (keys that are array
    indices are not moved to the front), and gives all its syntax errors
    one message.  The serialiser refuses values nested deeper than
    [stack_depth].  The theorems that hold for every [Runtime] do not
    depend on these choices. *)
Module Builtins.

Local Open Scope N_scope.

(** *** [Buffer.prototype.toString]: UTF-8 to UTF-16 *)

(** Decoder state: continuation bytes still [needed], the code point
    gathered so far, and the range allowed for the next byte. *)
Record utf8_state : Type := {
  needed : nat;
  code_point : N;
  lower : N;
  upper : N
}.

Definition idle : utf8_state :=
  {| needed := 0; code_point := 0; lower := 0x80; upper := 0xBF |}.

Definition between (lo hi b : N) : bool := (lo <=? b) && (b <=? hi).

(** The UTF-16 code units of a code point. *)
Definition utf16 (cp : N) : list N :=
  if cp <? 0x10000 then [cp]
  else let c := cp - 0x10000 in [0xD800 + N.shiftr c 10; 0xDC00 + N.land c 0x3FF].

(** A byte seen when no sequence is open. *)
Definition lead (b : N) : utf8_state * list N :=
  if b <=? 0x7F then (idle, [b])
  else if between 0xC2 0xDF b then
    ({| needed := 1; code_point := N.land b 0x1F; lower := 0x80; upper := 0xBF |}, [])
  else if between 0xE0 0xEF b then
    ({| needed := 2; code_point := N.land b 0xF;
        lower := if b =? 0xE0 then 0xA0 else 0x80;
        upper := if b =? 0xED then 0x9F else 0xBF |}, [])
  else if between 0xF0 0xF4 b then
    ({| needed := 3; code_point := N.land b 0x7;
        lower := if b =? 0xF0 then 0x90 else 0x80;
        upper := if b =? 0xF4 then 0x8F else 0xBF |}, [])
  else (idle, [0xFFFD]).

Definition feed (st : utf8_state) (b : N) : utf8_state * list N :=
  match needed st with
  | O => lead b
  | S n =>
      if between (lower st) (upper st) b then
        let cp := N.lor (N.shiftl (code_point st) 6) (N.land b 0x3F) in
        match n with
        | O => (idle, utf16 cp)
        | S _ => ({| needed := n; code_point := cp; lower := 0x80; upper := 0xBF |}, [])
        end
      else
        let '(st', out) := lead b in (st', 0xFFFD :: out)
  end.

(** [acc] holds the code units decoded so far, newest first. *)
Fixpoint utf8_decode_from (st : utf8_state) (bytes : Buffer) (acc : jsstring) : jsstring :=
  match bytes with
  | [] =>
      match needed st with
      | O => rev_append acc []
      | S _ => rev_append (0xFFFD :: acc) []
      end
  | b :: rest =>
      let '(st', out) := feed st (Byte.to_N b) in
      utf8_decode_from st' rest (rev_append out acc)
  end.

Definition utf8_decode (bytes : Buffer) : jsstring := utf8_decode_from idle bytes [].

(** *** [JSON.parse] *)

Definition is_ws (c : N) : bool := (c =? 32) || (c =? 9) || (c =? 10) || (c =? 13).

Fixpoint skip_ws (s : jsstring) : jsstring :=
  match s with
  | c :: rest => if is_ws c then skip_ws rest else s
  | [] => []
  end.

Definition digit (c : N) : option Z :=
  if between 48 57 c then Some (Z.of_N (c - 48)) else None.

Definition hex_digit (c : N) : option N :=
  if between 48 57 c then Some (c - 48)
  else if between 97 102 c then Some (c - 87)
  else if between 65 70 c then Some (c - 55)
  else None.

(** The characters of a string literal after its opening quote. *)
Fixpoint string_chars (s : jsstring) (acc : jsstring) : option (jsstring * jsstring) :=
  match s with
  | [] => None
  | c :: rest =>
      if c =? 34 then Some (rev_append acc [], rest)
      else if c =? 92 then
        match rest with
        | 34 :: r => string_chars r (34 :: acc)
        | 92 :: r => string_chars r (92 :: acc)
        | 47 :: r => string_chars r (47 :: acc)
        | 98 :: r => string_chars r (8 :: acc)
        | 102 :: r => string_chars r (12 :: acc)
        | 110 :: r => string_chars r (10 :: acc)
        | 114 :: r => string_chars r (13 :: acc)
        | 116 :: r => string_chars r (9 :: acc)
        | 117 :: h1 :: h2 :: h3 :: h4 :: r =>
            match hex_digit h1, hex_digit h2, hex_digit h3, hex_digit h4 with
            | Some a, Some b, Some c, Some d =>
                string_chars r (((a * 16 + b) * 16 + c) * 16 + d :: acc)
            | _, _, _, _ => None
            end
        | _ => None
        end
      else if c <? 32 then None
      else string_chars rest (c :: acc)
  end.

(** A run of decimal digits: their value, how many, and what follows. *)
Fixpoint digits (s : jsstring) (value : Z) (count : Z) : Z * Z * jsstring :=
  match s with
  | c :: rest =>
      match digit c with
      | Some d => digits rest (value * 10 + d)%Z (count + 1)%Z
      | None => (value, count, s)
      end
  | [] => (value, count, [])
  end.

(** [m * 10^e] as a rational. *)
Definition scale (m e : Z) : Q :=
  if (0 <=? e)%Z then inject_Z (m * 10 ^ e)%Z
  else Qmake m (Z.to_pos (10 ^ (- e))%Z).

(** Literals of magnitude [2^1024 - 2^970] or more round to an infinity. *)
Definition to_number (q : Q) : JS.number :=
  if Qle_bool (inject_Z (2 ^ 1024 - 2 ^ 970)) (Z.abs (Qnum q) # Qden q)
  then infinite (negb (Qle_bool 0 q))
  else finite q.

Definition numeral (s : jsstring) : option (Q * jsstring) :=
  let '(negative, s) :=
    match s with
    | 45 :: rest => (true, rest)
    | _ => (false, s)
    end in
  let int_part :=
    match s with
    | 48 :: rest => Some (0%Z, rest)
    | _ => let '(v, n, rest) := digits s 0%Z 0%Z in
           if (n =? 0)%Z then None else Some (v, rest)
    end in
  match int_part with
  | None => None
  | Some (i, s) =>
      let frac_part :=
        match s with
        | 46 :: rest =>
            let '(v, n, rest') := digits rest i 0%Z in
            if (n =? 0)%Z then None else Some (v, n, rest')
        | _ => Some (i, 0%Z, s)
        end in
      match frac_part with
      | None => None
      | Some (m, places, s) =>
          let exp_part :=
            match s with
            | 101 :: rest | 69 :: rest =>
                let '(sign, rest) :=
                  match rest with
                  | 43 :: r => (1%Z, r)
                  | 45 :: r => ((-1)%Z, r)
                  | _ => (1%Z, rest)
                  end in
                let '(v, n, rest') := digits rest 0%Z 0%Z in
                if (n =? 0)%Z then None else Some ((sign * v)%Z, rest')
            | _ => Some (0%Z, s)
            end in
          match exp_part with
          | None => None
          | Some (e, s) =>
              Some (scale (if negative then (- m)%Z else m) (e - places)%Z, s)
          end
      end
  end.

(** The members read so far (newest first) with the value of [key]
    replaced, if [key] is among them. *)
Fixpoint redefine (key : jsstring) (v : json) (acc : list (jsstring * json))
  : option (list (jsstring * json)) :=
  match acc with
  | [] => None
  | (k, old) :: rest =>
      if strict_eq k key then Some ((k, v) :: rest)
      else match redefine key v rest with
           | Some rest' => Some ((k, old) :: rest')
           | None => None
           end
  end.

(** [o[key] = v]: a repeated key keeps its place and takes the new
    value. *)
Definition define (key : jsstring) (v : json) (acc : list (jsstring * json))
  : list (jsstring * json) :=
  match redefine key v acc with
  | Some acc' => acc'
  | None => (key, v) :: acc
  end.

Fixpoint value (fuel : nat) (s : jsstring) : option (json * jsstring) :=
  match fuel with
  | O => None
  | S fuel =>
      match skip_ws s with
      | 110 :: 117 :: 108 :: 108 :: rest => Some (JNull, rest)
      | 116 :: 114 :: 117 :: 101 :: rest => Some (JBool true, rest)
      | 102 :: 97 :: 108 :: 115 :: 101 :: rest => Some (JBool false, rest)
      | 34 :: rest =>
          match string_chars rest [] with
          | Some (str, rest') => Some (JString str, rest')
          | None => None
          end
      | 91 :: rest =>
          match skip_ws rest with
          | 93 :: rest' => Some (JArray [], rest')
          | _ =>
              match elements fuel rest [] with
              | Some (vs, rest') => Some (JArray vs, rest')
              | None => None
              end
          end
      | 123 :: rest =>
          match skip_ws rest with
          | 125 :: rest' => Some (JObject [], rest')
          | _ =>
              match members fuel rest [] with
              | Some (fs, rest') => Some (JObject fs, rest')
              | None => None
              end
          end
      | s' =>
          match numeral s' with
          | Some (x, rest) => Some (JNumber (to_number x), rest)
          | None => None
          end
      end
  end

with elements (fuel : nat) (s : jsstring) (acc : list json) : option (list json * jsstring) :=
  match fuel with
  | O => None
  | S fuel =>
      match value fuel s with
      | Some (v, rest) =>
          match skip_ws rest with
          | 44 :: rest' => elements fuel rest' (v :: acc)
          | 93 :: rest' => Some (rev_append (v :: acc) [], rest')
          | _ => None
          end
      | None => None
      end
  end

with members (fuel : nat) (s : jsstring) (acc : list (jsstring * json))
  : option (list (jsstring * json) * jsstring) :=
  match fuel with
  | O => None
  | S fuel =>
      match skip_ws s with
      | 34 :: rest =>
          match string_chars rest [] with
          | Some (key, rest1) =>
              match skip_ws rest1 with
              | 58 :: rest2 =>
                  match value fuel rest2 with
                  | Some (v, rest3) =>
                      match skip_ws rest3 with
                      | 44 :: rest4 => members fuel rest4 (define key v acc)
                      | 125 :: rest4 => Some (rev_append (define key v acc) [], rest4)
                      | _ => None
                      end
                  | None => None
                  end
              | _ => None
              end
          | None => None
          end
      | _ => None
      end
  end.

Definition SyntaxError : jsstring := js "Unexpected token in JSON".

(** Every call in [value] consumes a character before it recurses, so the
    length of the text bounds the depth. *)
Definition json_parse (text : jsstring) : completion json :=
  match value (2 * length text + 2) text with
  | Some (v, rest) =>
      match skip_ws rest with
      | [] => Normal v
      | _ :: _ => Throw SyntaxError
      end
  | None => Throw SyntaxError
  end.

(** *** [JSON.stringify] *)

(** How deeply arrays and objects are nested in a value. *)
Fixpoint depth (v : json) : nat :=
  match v with
  | JArray elems => S (fold_right (fun e d => Nat.max (depth e) d) 0%nat elems)
  | JObject fields => S (fold_right (fun kv d => Nat.max (depth (snd kv)) d) 0%nat fields)
  | _ => 0%nat
  end.

(** The deepest nesting the serialiser handles before the call stack is
    exhausted.  The figure is that of one build of Node and varies with
    the build and the stack size. *)
Definition stack_depth : nat := 4107.

Definition RangeError : jsstring := js "Maximum call stack size exceeded".

Definition hex_of (n : N) : N := if n <? 10 then 48 + n else 87 + n.

(** One code unit inside a string literal. *)
Definition escape (c : N) : jsstring :=
  if c =? 34 then [92; 34]
  else if c =? 92 then [92; 92]
  else if c =? 8 then [92; 98]
  else if c =? 9 then [92; 116]
  else if c =? 10 then [92; 110]
  else if c =? 12 then [92; 102]
  else if c =? 13 then [92; 114]
  else if c <? 32 then [92; 117; 48; 48; hex_of (c / 16); hex_of (c mod 16)]
  else [c].

Definition quote (s : jsstring) : jsstring := 34 :: flat_map escape s ++ [34].

Definition digits_of (n : Z) : jsstring :=
  js (NilZero.string_of_uint (N.to_uint (Z.to_N n))).

(** Up to [fuel] digits after the decimal point of [r / d], [0 <= r < d]. *)
Fixpoint fraction (fuel : nat) (r d : Z) : jsstring :=
  match fuel with
  | O => []
  | S fuel =>
      if (r =? 0)%Z then []
      else (48 + Z.to_N (r * 10 / d)) :: fraction fuel ((r * 10) mod d)%Z d
  end.

(** A number in positional decimal notation; an infinity is [null]. *)
Definition render_number (x : JS.number) : jsstring :=
  match x with
  | infinite _ => js "null"
  | finite q =>
      let n := Z.abs (Qnum q) in
      let d := Zpos (Qden q) in
      (if (Qnum q <? 0)%Z then [45] else [])
      ++ digits_of (n / d)
      ++ match fraction 17 (n mod d)%Z d with
         | [] => []
         | ds => 46 :: ds
         end
  end.

Fixpoint join (sep : jsstring) (parts : list jsstring) : jsstring :=
  match parts with
  | [] => []
  | [p] => p
  | p :: rest => p ++ sep ++ join sep rest
  end.

(** [items] between [open] and [close], one per line when [gap] is not
    empty. *)
Definition bracket (gap indent : jsstring) (open close : N) (items : list jsstring)
  : jsstring :=
  match items, gap with
  | [], _ => [open; close]
  | _, [] => open :: join [44] items ++ [close]
  | _, _ =>
      let inner := indent ++ gap in
      open :: 10 :: inner ++ join (44 :: 10 :: inner) items ++ 10 :: indent ++ [close]
  end.

Fixpoint render (gap indent : jsstring) (v : json) : jsstring :=
  match v with
  | JNull => js "null"
  | JBool true => js "true"
  | JBool false => js "false"
  | JNumber x => render_number x
  | JString s => quote s
  | JArray elems =>
      bracket gap indent 91 93 (List.map (render gap (indent ++ gap)) elems)
  | JObject fields =>
      bracket gap indent 123 125
        (List.map (fun kv => quote (fst kv)
                               ++ (match gap with [] => [58] | _ => [58; 32] end)
                               ++ render gap (indent ++ gap) (snd kv))
                  fields)
  end.

Definition json_stringify (space : nat) (v : json) : completion jsstring :=
  if (depth v <=? stack_depth)%nat then Normal (render (repeat 32 space) [] v)
  else Throw RangeError.

Definition node : Runtime :=
  {| Buffer_toString := utf8_decode;
     JSON_parse := json_parse;
     JSON_stringify := json_stringify |}.

(** The bytes of an ASCII text. *)
Definition bytes_of (s : string) : Buffer := list_byte_of_string s.

End Builtins.

(** ** Derived forms used in the statements *)

(** The counter update of lines 107-109 as a function of the kind. *)
Definition count_kind (kind : jsstring) (s : Stats) : Stats :=
  if strict_eq kind (js "text") then incr_textItems s
  else if strict_eq kind (js "numeric") then incr_numericItems s
  else if strict_eq kind (js "object") then incr_objectItems s
  else s.

(** The item of lines 97-102 for a store that holds [n] items. *)
Definition stored_item (now : jsstring) (n : nat) (v : json) : Item :=
  {| item_id := Z.of_nat n + 1;
     item_type := categorizeData v;
     item_data := v;
     item_timestamp := now |}.

(** [res.writeHead(code, hs)] followed by [res.end(p)] on a response whose
    head is not written yet. *)
Definition respond (code : Z) (hs : list (jsstring * jsstring)) (p : payload)
    (r : ServerResponse) : ServerResponse :=
  {| headers := headers r ++ hs; head := Some code; ended := ended r ++ [p] |}.

(** The three CORS headers of lines 49-51. *)
Definition cors_headers : list (jsstring * jsstring) :=
  [ (js "Access-Control-Allow-Origin", js "http://127.0.0.1");
    (js "Access-Control-Allow-Methods", js "GET, POST, OPTIONS");
    (js "Access-Control-Allow-Headers", js "Content-Type") ].

Definition is_post_json (r : IncomingMessage) : bool :=
  strict_eq (method r) (js "POST") && strict_eq (url r) (js "/json").

(** [res.writeHead(code, hs)] not followed by [res.end]. *)
Definition head_only (code : Z) (hs : list (jsstring * jsstring))
    (r : ServerResponse) : ServerResponse :=
  {| headers := headers r ++ hs; head := Some code; ended := ended r |}.

(** Whether the handler returns on request [r], for a store [d] whose
    [totalRequests] is already incremented: it does unless
    [JSON.stringify] throws on the listing. *)
Definition handler_returns `{rt : Runtime} (r : IncomingMessage) (d : DataStore) : bool :=
  if strict_eq (method r) (js "OPTIONS") then true
  else if strict_eq (method r) (js "GET") && strict_eq (url r) (js "/json") then
    match JSON_stringify 2 (listing_envelope d) with
    | Normal _ => true
    | Throw _ => false
    end
  else true.

(** The exchange as the handler leaves it, for a store [d] whose
    [totalRequests] is already incremented. *)
Definition first_answer `{rt : Runtime} (r : IncomingMessage) (d : DataStore) : Exchange :=
  let answered code hs p :=
    {| req := r;
       res := {| headers := cors_headers ++ hs; head := Some code; ended := [p] |};
       body := []; listening := false; destroyed := false |} in
  if strict_eq (method r) (js "OPTIONS") then answered 200 [] None
  else if strict_eq (method r) (js "GET") && strict_eq (url r) (js "/json") then
    match JSON_stringify 2 (listing_envelope d) with
    | Normal _ => answered 200 application_json (Some (listing_envelope d))
    | Throw _ =>
        {| req := r;
           res := {| headers := cors_headers ++ application_json;
                     head := Some 200; ended := [] |};
           body := []; listening := false; destroyed := false |}
    end
  else if strict_eq (method r) (js "POST") && strict_eq (url r) (js "/json") then
    {| req := r;
       res := {| headers := cors_headers; head := None; ended := [] |};
       body := []; listening := true; destroyed := false |}
  else answered 404 application_json (Some not_found_envelope).

Definition bump_totalRequests (d : DataStore) : DataStore :=
  {| items := items d; stats := incr_totalRequests (stats d) |}.

(** How many stored items have a given [type]. *)
Fixpoint tally (kind : jsstring) (l : list Item) : Z :=
  match l with
  | [] => 0
  | it :: rest => (if strict_eq (item_type it) kind then 1 else 0) + tally kind rest
  end.

(** The kinds no counter of [dataStore.stats] tracks. *)
Definition uncounted (it : Item) : Prop :=
  item_type it = js "array" \/ item_type it = js "unknown".

(** A body that is a JSON object with a [status] member. *)
Definition envelope_status (p : payload) : option json :=
  match p with
  | Some v => get (js "status") v
  | None => None
  end.

Definition POST_json : IncomingMessage := {| method := js "POST"; url := js "/json" |}.
Definition GET_json : IncomingMessage := {| method := js "GET"; url := js "/json" |}.
Definition OPTIONS_any : IncomingMessage := {| method := js "OPTIONS"; url := js "/json" |}.

Definition kinds : list jsstring :=
  [ js "text"; js "numeric"; js "array"; js "object"; js "unknown" ].

(** What a response body must look like on the path that produced it:
    empty for OPTIONS, otherwise an object with a string [status]. *)
Definition well_formed_reply (r : IncomingMessage) (p : payload) : Prop :=
  if strict_eq (method r) (js "OPTIONS") then p = None
  else exists st, envelope_status p = Some (JString st).

(** The state of one exchange: still waiting for the body with nothing
    sent, or answered once, or left with a head written and no body. *)
Definition exchange_inv (e : Exchange) : Prop :=
  (listening e = true -> strict_eq (method (req e)) (js "OPTIONS") = false) /\
  match head (res e), ended (res e) with
  | None, [] => listening e = true /\ destroyed e = false
  | Some _, [p] => well_formed_reply (req e) p
  | Some _, [] => True
  | _, _ => False
  end.

(** No head without a body. *)
Definition complete (e : Exchange) : Prop :=
  head (res e) <> None -> ended (res e) <> [].

(** Each counter equals the number of stored items of its kind, and every
    stored item has one of the five kinds. *)
Definition store_inv (d : DataStore) : Prop :=
  textItems (stats d) = tally (js "text") (items d) /\
  numericItems (stats d) = tally (js "numeric") (items d) /\
  objectItems (stats d) = tally (js "object") (items d) /\
  Forall (fun it => In (item_type it) kinds) (items d).

(** While the process runs, every head written was followed by its
    body. *)
Definition server_inv (s : Server) : Prop :=
  store_inv (store s) /\ Forall exchange_inv (exchanges s) /\
  (alive s = true -> Forall complete (exchanges s)).

(** An exchange whose response was changed by [f]. *)
Definition answer_with (f : ServerResponse -> ServerResponse) (e : Exchange) : Exchange :=
  {| req := req e; res := f (res e); body := body e;
     listening := listening e; destroyed := destroyed e |}.

(** The JSON objects among the bodies an exchange has sent. *)
Definition envelopes (e : Exchange) : list json :=
  flat_map (fun p : payload => match p with Some v => [v] | None => [] end)
           (ended (res e)).

(** The number of calls of [res.end] on an exchange. *)
Definition responses (e : Exchange) : nat := length (ended (res e)).

(** A POST /json exchange that has accumulated [text] and sent nothing. *)
Definition open_exchange (text : jsstring) : Exchange :=
  {| req := POST_json;
     res := {| headers := cors_headers; head := None; ended := [] |};
     body := text; listening := true; destroyed := false |}.

(** The hosts the script binds a listening socket to. *)
Definition bound_hosts (l : list action) : list jsstring :=
  flat_map (fun a => match a with Listen _ host => [host] | OnSignal _ => [] end) l.

(** The only exchange is a POST to /json that was answered 413 and still
    has its listeners. *)
Definition rejected (s : Server) : Prop :=
  exists e,
    exchanges s = [e] /\ listening e = true /\
    head (res e) = Some 413 /\ ended (res e) = [Some too_large_envelope] /\
    (alive s = true -> Z.of_nat (length (body e)) > MAX_BODY_SIZE).

(** ** Concrete requests *)

Module Samples.
Import Builtins.

(** A JSON string literal: the text between double quotes. *)
Definition quoted (text : Buffer) : Buffer := Byte.x22 :: text ++ [Byte.x22].

(** 1,048,577 bytes, all the letter x, as they arrive: sixteen chunks of
    65,536 bytes and a last chunk of one byte.  One byte and one code unit
    over the limit, and not JSON. *)
Definition oversized_garbage : list Buffer :=
  repeat (repeat Byte.x78 (N.to_nat 65536)) 16 ++ [[Byte.x78]].

(** The UTF-8 encoding of the euro sign U+20AC. *)
Definition euro : Buffer := [Byte.xe2; Byte.x82; Byte.xac].

(** The JSON string literal of [n] euro signs: [3 * n + 2] bytes that
    decode to [n + 2] code units. *)
Definition euros (n : nat) : Buffer := quoted (concat (repeat euro n)).

(** 1,048,577 bytes of well-formed JSON. *)
Definition multibyte_body : Buffer := euros (N.to_nat 349525).

Definition timestamp : jsstring := js "2026-01-29T12:00:00.000Z".

(** [n] opening brackets followed by [n] closing ones, and the value they
    denote for [n = S k]: [k] arrays around an empty one. *)
Definition brackets (n : nat) : Buffer := repeat Byte.x5b n ++ repeat Byte.x5d n.

Fixpoint nesting (k : nat) : json :=
  match k with
  | O => JArray []
  | S k => JArray [nesting k]
  end.

End Samples.

(** ** Derived forms of the two listeners *)

(** An exchange after [body += text]. *)
Definition grown (text : jsstring) (e : Exchange) : Exchange :=
  {| req := req e; res := res e; body := body e ++ text;
     listening := listening e; destroyed := destroyed e |}.

(** The exchange after the ['data'] listener ran on a chunk that decodes
    to [text], and whether the listener returned. *)
Definition after_data (text : jsstring) (e : Exchange) : Exchange * bool :=
  if Z.of_nat (length (body e ++ text)) >? MAX_BODY_SIZE then
    match head (res e) with
    | None =>
        ({| req := req e;
            res := respond 413 application_json (Some too_large_envelope) (res e);
            body := body e ++ text; listening := listening e; destroyed := true |},
         true)
    | Some _ => (grown text e, false)
    end
  else (grown text e, true).

(** The store and the exchange after the ['end'] listener ran, given what
    [JSON.parse(body)] did, and whether the listener returned. *)
Definition after_end `{rt : Runtime} (parsed : completion json) (now : jsstring)
    (d : DataStore) (e : Exchange) : DataStore * Exchange * bool :=
  match parsed with
  | Normal v =>
      let it := stored_item now (length (items d)) v in
      let d' := {| items := items d ++ [it];
                   stats := count_kind (categorizeData v) (stats d) |} in
      match head (res e) with
      | None =>
          match JSON_stringify 2 (stored_envelope it) with
          | Normal _ =>
              (d',
               answer_with (respond 201 application_json (Some (stored_envelope it))) e,
               is_normal (JSON_stringify 0 v))
          | Throw _ => (d', answer_with (head_only 201 application_json) e, false)
          end
      | Some _ => (d', e, false)
      end
  | Throw msg =>
      match head (res e) with
      | None =>
          (d, answer_with (respond 400 application_json (Some (invalid_envelope msg))) e, true)
      | Some _ => (d, e, false)
      end
  end.

(** ** Predicates of the further properties *)

(** The replies the handler can give to a request [r]: status code and
    body, by the branch that sends them. *)
Inductive reply (r : IncomingMessage) : Z -> payload -> Prop :=
| reply_options :
    method r = js "OPTIONS" -> reply r 200 None
| reply_listing d :
    method r = js "GET" -> url r = js "/json" ->
    reply r 200 (Some (listing_envelope d))
| reply_stored it :
    is_post_json r = true -> reply r 201 (Some (stored_envelope it))
| reply_invalid msg :
    is_post_json r = true -> reply r 400 (Some (invalid_envelope msg))
| reply_too_large :
    is_post_json r = true -> reply r 413 (Some too_large_envelope)
| reply_not_found :
    method r <> js "OPTIONS" ->
    ~ (method r = js "GET" /\ url r = js "/json") ->
    is_post_json r = false ->
    reply r 404 (Some not_found_envelope).

(** An exchange on which [res.end] was called holds one of the replies
    above, and only one. *)
Definition replied_properly (e : Exchange) : Prop :=
  match ended (res e) with
  | [] => True
  | [p] => exists code, head (res e) = Some code /\ reply (req e) code p
  | _ => False
  end.

(** The status code and the [status] member agree: 2xx with [success]
    (or no body), 4xx with [error]. *)
Definition status_agrees (e : Exchange) : Prop :=
  match ended (res e) with
  | [] => True
  | [p] =>
      exists code, head (res e) = Some code /\
      ((200 <= code < 300 /\
        (p = None \/ envelope_status p = Some (JString (js "success")))) \/
       (400 <= code < 500 /\ envelope_status p = Some (JString (js "error"))))
  | _ => False
  end.

(** The headers of a response: the three CORS headers, followed by the
    JSON content type exactly when [res.end] was given a body, or when
    only the head was written. *)
Definition headers_as_set (e : Exchange) : Prop :=
  match ended (res e) with
  | [] =>
      headers (res e) =
      cors_headers ++ match head (res e) with Some _ => application_json | None => [] end
  | [p] =>
      headers (res e) =
      cors_headers ++ match p with Some _ => application_json | None => [] end
  | _ => False
  end.

(** The three shapes a response can have: nothing written; a head
    written and [JSON.stringify] thrown before [res.end]; one reply. *)
Definition response_shape (e : Exchange) : Prop :=
  match head (res e), ended (res e) with
  | None, [] => headers (res e) = cors_headers
  | Some _, [] => headers (res e) = cors_headers ++ application_json
  | Some code, [p] =>
      reply (req e) code p /\
      headers (res e) =
      cors_headers ++ match p with Some _ => application_json | None => [] end
  | _, _ => False
  end.

(** Stored item number [k] (from 0) has id [k + 1], and its type is the
    kind of its data. *)
Definition items_well_formed (l : list Item) : Prop :=
  forall k it, l !! k = Some it ->
    item_id it = Z.of_nat k + 1 /\ item_type it = categorizeData (item_data it).

(** The listeners are registered exactly on a POST to /json. *)
Definition reads_body_iff_post (e : Exchange) : Prop :=
  listening e = is_post_json (req e).

(** An exchange that still waits for its body and was not answered. *)
Definition waiting (e : Exchange) : Prop :=
  listening e = true /\ head (res e) = None.

(** What holds of every exchange, and of the process, after any inputs. *)
Definition exchange_facts (e : Exchange) : Prop :=
  reads_body_iff_post e /\ response_shape e.

Definition process_facts (s : Server) : Prop :=
  totalRequests (stats (store s)) = Z.of_nat (length (exchanges s)) /\
  items_well_formed (items (store s)) /\
  Forall exchange_facts (exchanges s).

(** * Properties *)

(** ** Strings and kinds *)

#[local] Arguments strict_eq : simpl never.
#[local] Arguments js : simpl never.

(** Decide the comparisons between string literals of the source. *)
Ltac literals :=
  repeat match goal with
  | |- context [strict_eq (js ?a) (js ?b)] =>
      let v := eval vm_compute in (strict_eq (js a) (js b)) in
      change (strict_eq (js a) (js b)) with v
  end.

Lemma categorizeData_cases v :
  categorizeData v =
  match v with
  | JString _ => js "text"
  | JNumber _ => js "numeric"
  | JArray _ => js "array"
  | JObject _ | JNull => js "object"
  | JBool _ => js "unknown"
  end.
Proof. destruct v; reflexivity. Qed.

Lemma categorizeData_range v :
  In (categorizeData v) [js "text"; js "numeric"; js "array"; js "object"; js "unknown"].
Proof. rewrite categorizeData_cases. destruct v; simpl; tauto. Qed.

(** ** The listeners, equationally *)

Section Listeners.
Context `{rt : Runtime}.

Lemma on_end_eq now h :
  on_end now h =
  match JSON_parse (body (h_ex h)) with
  | Normal v =>
      let it := stored_item now (length (items (h_store h))) v in
      let h1 := with_stats (count_kind (categorizeData v))
                  (with_items (fun l => l ++ [it]) h) in
      match head (res (h_ex h)) with
      | None =>
          match JSON_stringify 2 (stored_envelope it) with
          | Normal _ =>
              let h2 :=
                with_res (respond 201 application_json (Some (stored_envelope it))) h1 in
              match JSON_stringify 0 v with
              | Normal _ => (Normal tt, h2)
              | Throw _ => (Throw (ERR_HTTP_HEADERS_SENT "write"), h2)
              end
          | Throw _ =>
              (Throw (ERR_HTTP_HEADERS_SENT "write"),
               with_res (head_only 201 application_json) h1)
          end
      | Some _ => (Throw (ERR_HTTP_HEADERS_SENT "write"), h1)
      end
  | Throw msg =>
      match head (res (h_ex h)) with
      | None =>
          (Normal tt,
           with_res (respond 400 application_json (Some (invalid_envelope msg))) h)
      | Some _ => (Throw (ERR_HTTP_HEADERS_SENT "write"), h)
      end
  end.
Proof.
  unfold on_end, try_catch, res_writeHead, res_end, skip,
    mbind, script_bind, mret, script_ret, read, lift, update.
  destruct h as [st [rq [hs hd en] bd li de]].
  cbn [h_ex h_store body res head items].
  destruct (JSON_parse bd) as [v|msg].
  - unfold count_kind. rewrite categorizeData_cases.
    change (stored_item now (length (items st)) v) with
      {| item_id := Z.of_nat (length (items st)) + 1;
         item_type := categorizeData v; item_data := v; item_timestamp := now |}.
    rewrite categorizeData_cases.
    destruct v; literals;
      cbn [with_items with_stats with_res h_ex h_store res head];
      (destruct hd; [reflexivity|]);
      match goal with
      | |- context [JSON_stringify 2 ?e] => destruct (JSON_stringify 2 e)
      end; try reflexivity;
      match goal with
      | |- context [JSON_stringify 0 ?e] => destruct (JSON_stringify 0 e)
      end; reflexivity.
  - cbn [with_res h_ex h_store res head]; destruct hd; reflexivity.
Qed.

Lemma on_data_eq chunk h :
  on_data chunk h =
  let h1 := with_body (fun b => b ++ Buffer_toString chunk) h in
  if Z.of_nat (length (body (h_ex h) ++ Buffer_toString chunk)) >? MAX_BODY_SIZE then
    match head (res (h_ex h)) with
    | None =>
        (Normal tt,
         with_destroyed true
           (with_res (respond 413 application_json (Some too_large_envelope)) h1))
    | Some _ => (Throw (ERR_HTTP_HEADERS_SENT "write"), h1)
    end
  else (Normal tt, h1).
Proof.
  unfold on_data, res_writeHead, res_end, skip,
    mbind, script_bind, mret, script_ret, read, lift, update.
  destruct h as [st [rq [hs hd en] bd li de]].
  cbn [with_body h_ex h_store body res head].
  destruct (Z.of_nat (length (bd ++ Buffer_toString chunk)) >? MAX_BODY_SIZE);
    [destruct hd|]; reflexivity.
Qed.


Lemma requestListener_eq r d :
  requestListener {| h_store := d; h_ex := new_exchange r |} =
  ((if handler_returns r (bump_totalRequests d) then Normal tt
    else Throw (match JSON_stringify 2 (listing_envelope (bump_totalRequests d)) with
                | Throw msg => msg
                | Normal _ => []
                end)),
   {| h_store := bump_totalRequests d;
      h_ex := first_answer r (bump_totalRequests d) |}).
Proof.
  unfold requestListener, first_answer, handler_returns,
    res_setHeader, res_writeHead, res_end, skip,
    mbind, script_bind, mret, script_ret, read, lift, update.
  cbn [new_exchange with_stats with_res h_ex h_store res head fresh_response req].
  destruct (strict_eq (method r) (js "OPTIONS")); [reflexivity|].
  destruct (strict_eq (method r) (js "GET") && strict_eq (url r) (js "/json")).
  - cbv -[JSON_stringify listing_envelope js strict_eq incr_totalRequests app].
    destruct (JSON_stringify 2 _); reflexivity.
  - destruct (strict_eq (method r) (js "POST") && strict_eq (url r) (js "/json"));
      reflexivity.
Qed.

(** ** One step of the process *)

Lemma step_dead s i : alive s = false -> step s i = s.
Proof. intros Hd. unfold step. now rewrite Hd. Qed.

Lemma run_snoc s ins i : run s (ins ++ [i]) = step (run s ins) i.
Proof. unfold run. now rewrite fold_left_app. Qed.

Lemma step_request s r :
  alive s = true ->
  step s (Request r) =
  {| store := bump_totalRequests (store s);
     exchanges := exchanges s ++ [first_answer r (bump_totalRequests (store s))];
     alive := handler_returns r (bump_totalRequests (store s)) |}.
Proof.
  intros Ha. unfold step. rewrite Ha, requestListener_eq. cbn [h_store h_ex].
  destruct (handler_returns r (bump_totalRequests (store s))); reflexivity.
Qed.

(** Requests other than [GET /json] are handled without a call that can
    throw. *)
Lemma handler_returns_otherwise r d :
  (strict_eq (method r) (js "GET") && strict_eq (url r) (js "/json") = false \/
   strict_eq (method r) (js "OPTIONS") = true) ->
  handler_returns r d = true.
Proof.
  unfold handler_returns. intros [E|E]; rewrite E; [|reflexivity].
  now destruct (strict_eq (method r) (js "OPTIONS")).
Qed.

End Listeners.
(** ** Invariants *)

Lemma tally_snoc kind l it :
  tally kind (l ++ [it]) =
  tally kind l + (if strict_eq (item_type it) kind then 1 else 0).
Proof. induction l as [|x l IH]; simpl; [lia|]. rewrite IH. lia. Qed.

Lemma tally_nonneg kind l : 0 <= tally kind l.
Proof. induction l as [|x l IH]; simpl; [lia|]. destruct (strict_eq _ _); lia. Qed.

Lemma tally_partition l :
  Forall (fun it => In (item_type it) kinds) l ->
  tally (js "text") l + tally (js "numeric") l + tally (js "object") l
  + tally (js "array") l + tally (js "unknown") l = Z.of_nat (length l).
Proof.
  induction 1 as [|it l Hit _ IH]; [reflexivity|].
  cbn [tally length]. rewrite Nat2Z.inj_succ.
  unfold kinds in Hit. simpl in Hit.
  destruct Hit as [E|[E|[E|[E|[E|[]]]]]]; rewrite <- E; literals; lia.
Qed.

Lemma tally_uncounted l it :
  In it l -> uncounted it -> 1 <= tally (js "array") l + tally (js "unknown") l.
Proof.
  intros Hin Hu. induction l as [|x l IH]; [destruct Hin|].
  pose proof (tally_nonneg (js "array") l). pose proof (tally_nonneg (js "unknown") l).
  cbn [tally]. destruct Hin as [->|Hin].
  - destruct Hu as [E|E]; rewrite E; literals; lia.
  - specialize (IH Hin).
    destruct (strict_eq (item_type x) (js "array")), (strict_eq (item_type x) (js "unknown")); lia.
Qed.

Lemma store_inv_boot : store_inv dataStore.
Proof. repeat split. constructor. Qed.

Lemma store_inv_bump d : store_inv d -> store_inv (bump_totalRequests d).
Proof. intros (?&?&?&?). repeat split; assumption. Qed.

Lemma store_inv_push now v d :
  store_inv d ->
  store_inv {| items := items d ++ [stored_item now (length (items d)) v];
               stats := count_kind (categorizeData v) (stats d) |}.
Proof.
  intros (Ht & Hn & Ho & Hk). unfold store_inv. cbn [items stats].
  rewrite !tally_snoc. cbn [stored_item item_type].
  split; [|split; [|split]].
  4:{ apply Forall_app. split; [assumption|]. constructor; [|constructor].
      apply categorizeData_range. }
  all: unfold count_kind; rewrite categorizeData_cases; destruct v; literals;
    cbn [incr_textItems incr_numericItems incr_objectItems textItems numericItems objectItems];
    lia.
Qed.

Section Invariants.
Context `{rt : Runtime}.

Lemma first_answer_inv r d : exchange_inv (first_answer r d).
Proof.
  unfold first_answer, exchange_inv, well_formed_reply.
  destruct (strict_eq (method r) (js "OPTIONS")) eqn:Eo.
  - cbn. rewrite Eo. split; [discriminate|reflexivity].
  - destruct (strict_eq (method r) (js "GET") && strict_eq (url r) (js "/json")).
    + destruct (JSON_stringify 2 (listing_envelope d)); cbn; rewrite ?Eo;
        (split; [discriminate|]); [eexists; reflexivity|exact I].
    + destruct (strict_eq (method r) (js "POST") && strict_eq (url r) (js "/json")).
      * cbn. split; [intros _; assumption|split; reflexivity].
      * cbn. rewrite Eo. split; [discriminate|]. eexists. reflexivity.
Qed.

Lemma first_answer_complete r d :
  handler_returns r d = true -> complete (first_answer r d).
Proof.
  unfold first_answer, handler_returns, complete.
  destruct (strict_eq (method r) (js "OPTIONS")); [discriminate|].
  destruct (strict_eq (method r) (js "GET") && strict_eq (url r) (js "/json")).
  - destruct (JSON_stringify 2 (listing_envelope d)); discriminate.
  - destruct (strict_eq (method r) (js "POST") && strict_eq (url r) (js "/json"));
      cbn; [congruence|discriminate].
Qed.

(** What a listener leaves behind satisfies the invariants again, whether
    it returns or throws; when it returns, no head is left without its
    body. *)
Lemma on_end_inv now d e :
  store_inv d -> exchange_inv e -> complete e -> listening e = true ->
  let '(c, h) := on_end now {| h_store := d; h_ex := e |} in
  store_inv (h_store h) /\ exchange_inv (h_ex h) /\
  (is_normal c = true -> complete (h_ex h)).
Proof.
  intros Hd [Hm He] _ Hl. rewrite on_end_eq. cbn [h_ex h_store].
  specialize (Hm Hl). unfold exchange_inv, complete.
  destruct (JSON_parse (body e)) as [v|msg]; destruct (head (res e)) eqn:Eh;
    destruct (ended (res e)) as [|p [|]] eqn:Ee; try contradiction;
    repeat match goal with
           | |- context [match JSON_stringify ?n ?x with _ => _ end] =>
               destruct (JSON_stringify n x)
           end;
    cbn; rewrite ?Eh, ?Ee; cbn;
    (split; [first [now apply store_inv_push|assumption]|]);
    (split; [split; [intros _; assumption|]|try discriminate]);
    try exact I; try assumption;
    unfold well_formed_reply; rewrite ?Hm; try (eexists; reflexivity).
Qed.

Lemma on_data_inv chunk d e :
  store_inv d -> exchange_inv e -> complete e -> listening e = true ->
  let '(c, h) := on_data chunk {| h_store := d; h_ex := e |} in
  store_inv (h_store h) /\ exchange_inv (h_ex h) /\
  (is_normal c = true -> complete (h_ex h)).
Proof.
  intros Hd [Hm He] Hc Hl. rewrite on_data_eq. cbn [h_ex h_store body].
  specialize (Hm Hl). unfold exchange_inv, complete in *.
  destruct (Z.of_nat _ >? MAX_BODY_SIZE); destruct (head (res e)) eqn:Eh;
    destruct (ended (res e)) as [|p [|]] eqn:Ee; try contradiction;
    cbn; rewrite ?Eh, ?Ee; cbn;
    (split; [assumption|]);
    (split; [split; [intros _; assumption|]|try discriminate]);
    try exact I; try assumption; try (intros _; assumption);
    unfold well_formed_reply; rewrite ?Hm; try (eexists; reflexivity).
Qed.

Lemma emit_inv s i listener :
  (forall d e, store_inv d -> exchange_inv e -> complete e -> listening e = true ->
     let '(c, h) := listener {| h_store := d; h_ex := e |} in
     store_inv (h_store h) /\ exchange_inv (h_ex h) /\
     (is_normal c = true -> complete (h_ex h))) ->
  alive s = true -> server_inv s -> server_inv (emit s i listener).
Proof.
  intros Hl Ha (Hd & He & Hc). specialize (Hc Ha). unfold emit.
  destruct (exchanges s !! i) as [e|] eqn:Ei; [|unfold server_inv; auto].
  destruct (listening e) eqn:El; [|unfold server_inv; auto].
  specialize (Hl (store s) e Hd (Forall_lookup_1 _ _ _ _ He Ei)
                (Forall_lookup_1 _ _ _ _ Hc Ei) El).
  destruct (listener _) as [c h]. destruct Hl as (Hd' & He' & Hc').
  split; [|split]; cbn; [assumption|now apply Forall_insert|].
  intros Hn. apply Forall_insert; auto.
Qed.

Lemma step_inv s i : server_inv s -> server_inv (step s i).
Proof.
  intros Hs. destruct (alive s) eqn:Ha; [|now rewrite step_dead].
  destruct i as [r|i chunk|i now].
  - rewrite step_request by assumption. destruct Hs as (Hd & He & Hc).
    split; [|split]; cbn.
    + now apply store_inv_bump.
    + apply Forall_app. split; [assumption|]. constructor; [|constructor].
      apply first_answer_inv.
    + intros Hr. apply Forall_app. split; [auto|]. constructor; [|constructor].
      now apply first_answer_complete.
  - unfold step. rewrite Ha. apply emit_inv; [|assumption..].
    intros d e. apply on_data_inv.
  - unfold step. rewrite Ha. apply emit_inv; [|assumption..].
    intros d e. apply on_end_inv.
Qed.

Lemma run_inv ins s : server_inv s -> server_inv (run s ins).
Proof.
  revert s. induction ins as [|i ins IH]; intros s Hs; [assumption|].
  apply IH. now apply step_inv.
Qed.

Lemma boot_inv : server_inv boot.
Proof. split; [apply store_inv_boot|split; [constructor|intros _; constructor]]. Qed.

End Invariants.

(** ** The executable builtins on long inputs *)

Module BuiltinFacts.
Import Builtins Samples.

Lemma utf8_decode_from_x n acc :
  utf8_decode_from idle (repeat Byte.x78 n) acc = rev_append acc (repeat 120%N n).
Proof.
  revert acc. induction n as [|n IH]; intros acc; [reflexivity|].
  cbn [repeat utf8_decode_from]. change (feed idle (Byte.to_N Byte.x78)) with (idle, [120%N]).
  cbn [rev_append]. now rewrite IH.
Qed.

Lemma utf8_decode_x n : utf8_decode (repeat Byte.x78 n) = repeat 120%N n.
Proof. unfold utf8_decode. now rewrite utf8_decode_from_x. Qed.

Lemma utf8_decode_from_euros n rest acc :
  utf8_decode_from idle (concat (repeat euro n) ++ rest) acc =
  utf8_decode_from idle rest (repeat 8364%N n ++ acc).
Proof.
  revert acc. induction n as [|n IH]; intros acc; [reflexivity|].
  cbn [repeat concat euro app].
  change (utf8_decode_from idle (Byte.xe2 :: Byte.x82 :: Byte.xac :: ?l) acc)
    with (utf8_decode_from idle l (8364%N :: acc)).
  rewrite IH. f_equal. change (8364%N :: acc) with ([8364%N] ++ acc).
  rewrite app_assoc. f_equal. now rewrite <- repeat_cons.
Qed.

Lemma utf8_decode_euros n :
  utf8_decode (euros n) = 34%N :: repeat 8364%N n ++ [34%N].
Proof.
  unfold utf8_decode, euros, quoted.
  change (utf8_decode_from idle (Byte.x22 :: ?l) []) with (utf8_decode_from idle l [34%N]).
  rewrite utf8_decode_from_euros. cbn [utf8_decode_from].
  change (feed idle (Byte.to_N Byte.x22)) with (idle, [34%N]).
  cbn [rev_append needed idle]. rewrite rev_append_rev, rev_app_distr.
  cbn [rev app]. now rewrite rev_repeat.
Qed.

Lemma length_euros n : length (euros n) = (3 * n + 2)%nat.
Proof.
  unfold euros, quoted. cbn [length]. rewrite length_app. cbn [length].
  assert (length (concat (repeat euro n)) = (3 * n)%nat) as ->; [|lia].
  induction n as [|n IH]; [reflexivity|].
  cbn [repeat concat]. rewrite length_app, IH. cbn [euro length]. lia.
Qed.

Lemma string_chars_euros n rest acc :
  string_chars (repeat 8364%N n ++ 34%N :: rest) acc =
  Some (rev_append acc (repeat 8364%N n), rest).
Proof.
  revert acc. induction n as [|n IH]; intros acc.
  - reflexivity.
  - cbn [repeat app].
    change (string_chars (8364%N :: ?l) acc) with (string_chars l (8364%N :: acc)).
    rewrite IH. reflexivity.
Qed.

Lemma json_parse_euros n :
  json_parse (34%N :: repeat 8364%N n ++ [34%N]) = Normal (JString (repeat 8364%N n)).
Proof.
  unfold json_parse.
  replace (2 * length (34%N :: repeat 8364%N n ++ [34%N]) + 2)%nat
    with (S (2 * length (34%N :: repeat 8364%N n ++ [34%N]) + 1))%nat by lia.
  cbn [value]. change (skip_ws (34%N :: ?l)) with (34%N :: l). cbv iota beta.
  rewrite string_chars_euros. reflexivity.
Qed.

Lemma json_parse_x rest : json_parse (120%N :: rest) = Throw SyntaxError.
Proof.
  unfold json_parse.
  replace (2 * length (120%N :: rest) + 2)%nat
    with (S (2 * length (120%N :: rest) + 1))%nat by lia.
  reflexivity.
Qed.

End BuiltinFacts.

(** ** Steps on an open exchange *)

Section Steps.
Context `{rt : Runtime}.

Lemma step_emit s i e listener input :
  (forall s', step s' input = if alive s' then emit s' i listener else s') ->
  alive s = true -> exchanges s !! i = Some e -> listening e = true ->
  step s input =
  let '(c, h) := listener {| h_store := store s; h_ex := e |} in
  {| store := h_store h; exchanges := <[i := h_ex h]> (exchanges s); alive := is_normal c |}.
Proof.
  intros Hs Ha Hi Hl. rewrite Hs, Ha. unfold emit. now rewrite Hi, Hl.
Qed.

Lemma step_end s i e now :
  alive s = true -> exchanges s !! i = Some e -> listening e = true ->
  step s (EndEvent i now) =
  let '(c, h) := on_end now {| h_store := store s; h_ex := e |} in
  {| store := h_store h; exchanges := <[i := h_ex h]> (exchanges s); alive := is_normal c |}.
Proof. apply step_emit. reflexivity. Qed.

Lemma step_data s i e chunk :
  alive s = true -> exchanges s !! i = Some e -> listening e = true ->
  step s (DataEvent i chunk) =
  let '(c, h) := on_data chunk {| h_store := store s; h_ex := e |} in
  {| store := h_store h; exchanges := <[i := h_ex h]> (exchanges s); alive := is_normal c |}.
Proof. apply step_emit. reflexivity. Qed.

(** A body within the limit is only accumulated. *)
Lemma data_within_limit s i e chunk :
  alive s = true -> exchanges s !! i = Some e -> listening e = true ->
  Z.of_nat (length (body e ++ Buffer_toString chunk)) <= MAX_BODY_SIZE ->
  step s (DataEvent i chunk) =
  {| store := store s;
     exchanges :=
       <[i := {| req := req e; res := res e; body := body e ++ Buffer_toString chunk;
                 listening := listening e; destroyed := destroyed e |}]> (exchanges s);
     alive := true |}.
Proof.
  intros Ha Hi Hl Hle. rewrite (step_data s i e) by assumption. rewrite on_data_eq.
  cbn [h_ex h_store body].
  destruct (Z.gtb_spec (Z.of_nat (length (body e ++ Buffer_toString chunk))) MAX_BODY_SIZE);
    [lia|reflexivity].
Qed.

(** The first chunk that takes the accumulated string over the limit is
    answered with 413, and the connection is destroyed; the store is not
    touched. *)
Lemma data_over_limit s i e chunk :
  alive s = true -> exchanges s !! i = Some e -> listening e = true ->
  head (res e) = None ->
  Z.of_nat (length (body e ++ Buffer_toString chunk)) > MAX_BODY_SIZE ->
  step s (DataEvent i chunk) =
  {| store := store s;
     exchanges :=
       <[i := {| req := req e;
                 res := respond 413 application_json (Some too_large_envelope) (res e);
                 body := body e ++ Buffer_toString chunk;
                 listening := listening e; destroyed := true |}]> (exchanges s);
     alive := true |}.
Proof.
  intros Ha Hi Hl Hh Hgt. rewrite (step_data s i e) by assumption. rewrite on_data_eq.
  cbn [h_ex h_store body]. rewrite Hh.
  destruct (Z.gtb_spec (Z.of_nat (length (body e ++ Buffer_toString chunk))) MAX_BODY_SIZE);
    [reflexivity|lia].
Qed.

(** The ['end'] event on a request not answered yet, whose body
    [JSON.parse] rejects: 400 with the [Invalid JSON] envelope, the
    process goes on, the store is as before. *)
Lemma end_invalid s i e now msg :
  alive s = true -> exchanges s !! i = Some e -> listening e = true ->
  head (res e) = None ->
  JSON_parse (body e) = Throw msg ->
  step s (EndEvent i now) =
  {| store := store s;
     exchanges :=
       <[i := answer_with (respond 400 application_json (Some (invalid_envelope msg))) e]>
         (exchanges s);
     alive := true |}.
Proof.
  intros Ha Hi Hl Hh Hp. rewrite (step_end s i e) by assumption. rewrite on_end_eq.
  cbn [h_ex h_store]. rewrite Hp, Hh. reflexivity.
Qed.

(** The ['end'] event on a request that was already answered: whatever
    the body is, [res.writeHead] throws, nothing catches it, and the
    process ends. *)
Lemma end_after_answer s i e now code :
  alive s = true -> exchanges s !! i = Some e -> listening e = true ->
  head (res e) = Some code ->
  alive (step s (EndEvent i now)) = false.
Proof.
  intros Ha Hi Hl Hh. rewrite (step_end s i e) by assumption. rewrite on_end_eq.
  cbn [h_ex h_store]. rewrite Hh. destruct (JSON_parse (body e)); reflexivity.
Qed.

End Steps.

(** * The claims *)
(** ** Facts about the derived forms *)

Lemma strict_eq_true a b : strict_eq a b = true <-> a = b.
Proof. unfold strict_eq. apply bool_decide_eq_true. Qed.

Lemma strict_eq_false a b : strict_eq a b = false <-> a <> b.
Proof. unfold strict_eq. apply bool_decide_eq_false. Qed.

Lemma is_post_json_spec r :
  is_post_json r = true <-> method r = js "POST" /\ url r = js "/json".
Proof.
  unfold is_post_json. rewrite andb_true_iff, !strict_eq_true. reflexivity.
Qed.

Section Returns.
Context `{rt : Runtime}.

(** The handler returns unless [JSON.stringify] throws on the listing of
    a [GET /json]. *)
Lemma handler_returns_spec r d :
  handler_returns r d =
  if strict_eq (method r) (js "GET") && strict_eq (url r) (js "/json")
  then is_normal (JSON_stringify 2 (listing_envelope d)) else true.
Proof.
  unfold handler_returns.
  destruct (strict_eq (method r) (js "OPTIONS")) eqn:Eo.
  - apply strict_eq_true in Eo. rewrite Eo. literals. reflexivity.
  - destruct (strict_eq (method r) (js "GET") && strict_eq (url r) (js "/json"));
      [|reflexivity].
    destruct (JSON_stringify 2 (listing_envelope d)); reflexivity.
Qed.

End Returns.

(** The serialiser of [Builtins] returns on every value nested no deeper
    than [stack_depth]. *)
Lemma json_stringify_returns space v msg :
  (Builtins.depth v <= Builtins.stack_depth)%nat ->
  JSON_stringify (Runtime:=Builtins.node) space v = Throw msg -> False.
Proof.
  intros Hd. apply Nat.leb_le in Hd.
  change (JSON_stringify (Runtime:=Builtins.node) space v)
    with (Builtins.json_stringify space v).
  unfold Builtins.json_stringify. rewrite Hd. discriminate.
Qed.

Lemma depth_stored_envelope it :
  Builtins.depth (stored_envelope it) = S (S (Builtins.depth (item_data it))).
Proof.
  unfold stored_envelope, json_of_item, num.
  cbn [Builtins.depth fold_right snd]. rewrite !Nat.max_0_r. reflexivity.
Qed.

(** * The claims *)

Import Builtins Samples.

(** ** Classification *)

(** C1, as stated, fails: a numeric value is not given the kind
    [number]; the classifier returns [numeric]. *)
Lemma categorizeData_number_is_not_number :
  categorizeData (num 42) = js "numeric" /\ categorizeData (num 42) <> js "number".
Proof. split; [reflexivity|discriminate]. Qed.

(** C1, amended: [categorizeData] gives a string the kind [text], a number
    the kind [numeric], an array the kind [array], a keyed mapping the
    kind [object] and a boolean the kind [unknown]. *)
Theorem categorizeData_kinds :
  (forall s, categorizeData (JString s) = js "text") /\
  (forall x, categorizeData (JNumber x) = js "numeric") /\
  (forall elems, categorizeData (JArray elems) = js "array") /\
  (forall fields, categorizeData (JObject fields) = js "object") /\
  (forall b, categorizeData (JBool b) = js "unknown").
Proof. repeat split. Qed.

(** C2: the claim wants [unknown] for [true], [false] and [null].  The
    booleans do fall through to [unknown], but [typeof null] is
    ['object'], so [null] is classified [object]: posting the body [null]
    stores an item of type [object] and increments [objectItems]. *)
Theorem null_is_classified_object now :
  categorizeData (JBool true) = js "unknown" /\
  categorizeData (JBool false) = js "unknown" /\
  categorizeData JNull = js "object" /\
  categorizeData JNull <> js "unknown" /\
  let s := run (rt:=node) boot
             [Request POST_json; DataEvent 0 (bytes_of "null"); EndEvent 0 now] in
  List.map item_type (items (store s)) = [js "object"] /\
  List.map item_data (items (store s)) = [JNull] /\
  objectItems (stats (store s)) = 1.
Proof. repeat split. discriminate. Qed.

(** C3: classification looks at the whole decoded value.  Every object is
    [object] whatever its members are, so [{"value": 42}] is [object] and
    not [number] (nor [numeric]); every array is [array] and never
    [object], whatever its elements are. *)
Theorem categorizeData_whole_value :
  (forall fields, categorizeData (JObject fields) = js "object") /\
  (forall elems, categorizeData (JArray elems) = js "array" /\
                 categorizeData (JArray elems) <> js "object") /\
  categorizeData (JObject [(js "value", num 42)]) = js "object" /\
  categorizeData (JObject [(js "value", num 42)]) <> js "number" /\
  categorizeData (JObject [(js "value", num 42)]) <> js "numeric" /\
  JSON_parse (Runtime:=node) (Buffer_toString (Runtime:=node)
    (Byte.x7b :: quoted (bytes_of "value") ++ bytes_of ": 42}"))
    = Normal (JObject [(js "value", num 42)]) /\
  JSON_parse (Runtime:=node) (Buffer_toString (Runtime:=node) (bytes_of "[1,2,3]"))
    = Normal (JArray [num 1; num 2; num 3]).
Proof.
  split; [reflexivity|]. split; [intros elems; split; [reflexivity|discriminate]|].
  repeat split; discriminate.
Qed.

(** ** One POST /json request on a fresh process *)

Section OnePost.
Context `{rt : Runtime}.

Lemma post_opens :
  step boot (Request POST_json) =
  {| store := bump_totalRequests dataStore; exchanges := [open_exchange []]; alive := true |}.
Proof.
  rewrite step_request by reflexivity.
  unfold handler_returns, first_answer, POST_json. cbn [method url]. literals.
  reflexivity.
Qed.

Lemma post_within_limit chunk :
  Z.of_nat (length (Buffer_toString chunk)) <= MAX_BODY_SIZE ->
  run boot [Request POST_json; DataEvent 0 chunk] =
  {| store := bump_totalRequests dataStore;
     exchanges := [open_exchange (Buffer_toString chunk)];
     alive := true |}.
Proof.
  intros Hle. unfold run. cbn [fold_left]. rewrite post_opens.
  now rewrite (data_within_limit _ 0 (open_exchange [])).
Qed.

End OnePost.

(** ** Malformed bodies *)

(** The letter x, [n] times, is not JSON, and decodes to [n] code units. *)
Lemma garbage_decodes n :
  Buffer_toString (Runtime:=node) (repeat Byte.x78 n) = repeat 120%N n.
Proof. apply BuiltinFacts.utf8_decode_x. Qed.

Lemma garbage_is_not_json n :
  (0 < n)%nat -> JSON_parse (Runtime:=node) (repeat 120%N n) = Throw SyntaxError.
Proof. destruct n as [|m]; [lia|]. intros _. apply BuiltinFacts.json_parse_x. Qed.

Section Rejected.
Context `{rt : Runtime}.

Lemma rejected_data s chunk :
  rejected s -> rejected (step s (DataEvent 0 chunk)).
Proof.
  intros (e & Hex & Hl & Hh & He & Hb).
  destruct (alive s) eqn:Ha; [|rewrite step_dead by assumption; exists e; rewrite Ha; tauto].
  assert (Hi : exchanges s !! 0%nat = Some e) by now rewrite Hex.
  rewrite (step_data s 0 e) by assumption. rewrite on_data_eq.
  cbn [h_ex h_store body]. rewrite Hh.
  destruct (Z.gtb_spec (Z.of_nat (length (body e ++ Buffer_toString chunk))) MAX_BODY_SIZE)
    as [_|Hle].
  - rewrite Hex. eexists. cbn. split; [reflexivity|]. repeat split; try assumption.
    discriminate.
  - specialize (Hb eq_refl). rewrite length_app in Hle. lia.
Qed.

Lemma rejected_end s now :
  rejected s ->
  rejected (step s (EndEvent 0 now)) /\
  alive (step s (EndEvent 0 now)) = false.
Proof.
  intros (e & Hex & Hl & Hh & He & Hb).
  destruct (alive s) eqn:Ha;
    [|rewrite step_dead by assumption; split; [exists e; rewrite Ha; tauto|assumption]].
  assert (Hi : exchanges s !! 0%nat = Some e) by now rewrite Hex.
  rewrite (step_end s 0 e) by assumption. rewrite on_end_eq.
  cbn [h_ex h_store]. rewrite Hh, Hex.
  destruct (JSON_parse (body e)); cbn; (split; [|reflexivity]);
    exists e; (split; [now destruct e|]); repeat split; try assumption; discriminate.
Qed.

End Rejected.

(** A body of letters x on a fresh process, however it is cut into chunks:
    while the total stays within the limit the exchange stays open, and
    from the chunk that crosses the limit on it is [rejected]. *)
Lemma garbage_chunks sizes m s :
  Z.of_nat m <= MAX_BODY_SIZE ->
  s = {| store := bump_totalRequests dataStore;
         exchanges := [open_exchange (repeat 120%N m)]; alive := true |} ->
  let s' := run (rt:=node) s (List.map (fun k => DataEvent 0 (repeat Byte.x78 k)) sizes) in
  if Z.of_nat (m + list_sum sizes) >? MAX_BODY_SIZE then rejected s'
  else s' = {| store := bump_totalRequests dataStore;
               exchanges := [open_exchange (repeat 120%N (m + list_sum sizes))];
               alive := true |}.
Proof.
  revert m s. induction sizes as [|k sizes IH]; intros m s Hm Hs.
  - change (list_sum []) with 0%nat. cbn [List.map run fold_left]. rewrite Nat.add_0_r.
    destruct (Z.gtb_spec (Z.of_nat m) MAX_BODY_SIZE) as [Hgt|Hle]; [lia|assumption].
  - change (list_sum (k :: sizes)) with (k + list_sum sizes)%nat.
    cbn [List.map]. unfold run. cbn [fold_left].
    fold (run (rt:=node) (step (rt:=node) s (DataEvent 0 (repeat Byte.x78 k)))
            (List.map (fun k => DataEvent 0 (repeat Byte.x78 k)) sizes)).
    assert (Hbody : body (open_exchange (repeat 120%N m))
                    ++ Buffer_toString (Runtime:=node) (repeat Byte.x78 k)
                    = repeat 120%N (m + k)).
    { rewrite garbage_decodes. cbn [body open_exchange]. now rewrite repeat_app. }
    destruct (Z.gtb_spec (Z.of_nat (m + k)) MAX_BODY_SIZE) as [Hgt|Hle].
    + assert (Hr : rejected (step (rt:=node) s (DataEvent 0 (repeat Byte.x78 k)))).
      { subst s. rewrite (data_over_limit _ 0 (open_exchange (repeat 120%N m)));
          [|reflexivity..|rewrite Hbody, repeat_length; lia].
        eexists. split; [reflexivity|]. repeat split.
        intros _. cbn [body]. rewrite Hbody, repeat_length. lia. }
      destruct (Z.gtb_spec (Z.of_nat (m + (k + list_sum sizes))) MAX_BODY_SIZE); [|lia].
      clear -Hr. revert Hr. generalize (step (rt:=node) s (DataEvent 0 (repeat Byte.x78 k))).
      induction sizes as [|k' sizes IH']; intros s' Hr; [exact Hr|].
      cbn [List.map]. unfold run. cbn [fold_left]. apply IH'. now apply rejected_data.
    + specialize (IH (m + k)%nat (step (rt:=node) s (DataEvent 0 (repeat Byte.x78 k)))).
      rewrite <- Nat.add_assoc in IH. apply IH; [exact Hle|]. subst s.
      rewrite (data_within_limit _ 0 (open_exchange (repeat 120%N m)));
        [|reflexivity..|rewrite Hbody, repeat_length; lia].
      rewrite Hbody. reflexivity.
Qed.

(** A malformed body of more than [MAX_BODY_SIZE] letters, in any chunking,
    followed by ['end']: 413 was sent, and the process is gone. *)
Lemma garbage_over_limit sizes now :
  Z.of_nat (list_sum sizes) > MAX_BODY_SIZE ->
  let s := run (rt:=node) boot
             (Request POST_json
              :: List.map (fun k => DataEvent 0 (repeat Byte.x78 k)) sizes
              ++ [EndEvent 0 now]) in
  JSON_parse (Runtime:=node) (repeat 120%N (list_sum sizes)) = Throw SyntaxError /\
  (exists e, exchanges s = [e] /\
             head (res e) = Some 413 /\
             ended (res e) = [Some too_large_envelope]) /\
  alive s = false.
Proof.
  intros Hn s. split.
  { apply garbage_is_not_json. unfold MAX_BODY_SIZE in Hn. lia. }
  subst s. unfold run. cbn [fold_left]. rewrite fold_left_app. cbn [fold_left].
  rewrite (post_opens (rt:=node)).
  assert (H0 : Z.of_nat 0 <= MAX_BODY_SIZE) by (unfold MAX_BODY_SIZE; lia).
  pose proof (garbage_chunks sizes 0 _ H0 eq_refl) as Hc. cbv zeta in Hc.
  cbn [Nat.add] in Hc.
  destruct (Z.gtb_spec (Z.of_nat (list_sum sizes)) MAX_BODY_SIZE); [|lia].
  unfold run in Hc. destruct (rejected_end (rt:=node) _ now Hc) as [(e & Hex & _ & Hh & He & _) Hd].
  split; [|exact Hd]. exists e. tauto.
Qed.

(** C4: the claim holds for a body that stays within the size limit
    ([end_invalid]), but a malformed body of 1,048,577 letters, arriving
    in sixteen chunks of 65,536 and a last chunk of one, ends the
    process.  The ['data'] listener answers 413 on the last chunk; the
    ['end'] listener has no guard against an exchange that was already
    answered, so its [catch] block calls [res.writeHead(400)] on a
    response whose head is written; that call throws and nothing catches
    it. *)
Theorem malformed_oversized_body_ends_process now :
  let s := run (rt:=node) boot
             (Request POST_json
              :: List.map (DataEvent 0) oversized_garbage
              ++ [EndEvent 0 now]) in
  Z.of_nat (length (concat oversized_garbage)) = 1048577 /\
  JSON_parse (Runtime:=node) (Buffer_toString (Runtime:=node) (concat oversized_garbage))
    = Throw SyntaxError /\
  (exists e, exchanges s = [e] /\
             head (res e) = Some 413 /\
             ended (res e) = [Some too_large_envelope]) /\
  alive s = false.
Proof.
  pose (sizes := repeat (N.to_nat 65536) 16 ++ [1%nat]).
  assert (Hchunks : oversized_garbage = List.map (repeat Byte.x78) sizes) by reflexivity.
  assert (Hsum : Z.of_nat (list_sum sizes) = 1048577).
  { subst sizes. cbn [repeat app list_sum fold_right].
    rewrite !Nat2Z.inj_add, N_nat_Z. reflexivity. }
  assert (Hcat : concat oversized_garbage = repeat Byte.x78 (list_sum sizes)).
  { rewrite Hchunks. clear. induction sizes as [|k l IH]; [reflexivity|].
    change (list_sum (k :: l)) with (k + list_sum l)%nat.
    cbn [List.map concat]. now rewrite IH, repeat_app. }
  rewrite Hcat, repeat_length, garbage_decodes, Hchunks, map_map.
  split; [exact Hsum|]. apply garbage_over_limit. rewrite Hsum. reflexivity.
Qed.

(** ** The reply to a stored submission *)

(** C5, as stated, fails: the reply to the body ["hello"] has status
    [success], not [ok], and has neither a [kind] nor a [value] member. *)
Lemma hello_reply_is_not_ok_kind_value :
  let s := run (rt:=node) boot
             [Request POST_json; DataEvent 0 (quoted (bytes_of "hello"));
              EndEvent 0 timestamp] in
  exists e v,
    exchanges s !! 0%nat = Some e /\
    ended (res e) = [Some v] /\
    get (js "status") v = Some (JString (js "success")) /\
    get (js "status") v <> Some (JString (js "ok")) /\
    get (js "kind") v = None /\
    get (js "value") v = None.
Proof.
  cbv zeta. eexists. eexists. split; [vm_compute; reflexivity|].
  cbn [res ended]. split; [reflexivity|].
  split; [reflexivity|]. split; [discriminate|]. split; reflexivity.
Qed.

(** C5, amended: when the ['end'] event reaches a request that was not
    answered yet and whose body parses to [v], and the two calls of
    [JSON.stringify] the listener makes (on the reply, line 112, and on
    [v], line 118) return, then the response is 201 and what is handed to
    [JSON.stringify] as its body is the object [{status: 'success',
    message: ..., item: {id, type, data, timestamp}}], where [id] is one
    more than the number of items stored before, [type] is one of text,
    numeric, array, object, unknown, and [data] is [v], the value
    [JSON.parse] returned; the same item is appended to the store and the
    process goes on. *)
Theorem stored_reply_shape `{rt : Runtime} s i e now v text line :
  alive s = true -> exchanges s !! i = Some e -> listening e = true ->
  head (res e) = None ->
  JSON_parse (body e) = Normal v ->
  JSON_stringify 2 (stored_envelope (stored_item now (length (items (store s))) v))
    = Normal text ->
  JSON_stringify 0 v = Normal line ->
  let it := stored_item now (length (items (store s))) v in
  step s (EndEvent i now) =
    {| store := {| items := items (store s) ++ [it];
                   stats := count_kind (categorizeData v) (stats (store s)) |};
       exchanges :=
         <[i := answer_with (respond 201 application_json (Some (stored_envelope it))) e]>
           (exchanges s);
       alive := true |} /\
  get (js "status") (stored_envelope it) = Some (JString (js "success")) /\
  get (js "item") (stored_envelope it) = Some (json_of_item it) /\
  get (js "id") (json_of_item it) = Some (num (Z.of_nat (length (items (store s))) + 1)) /\
  get (js "type") (json_of_item it) = Some (JString (categorizeData v)) /\
  In (categorizeData v) kinds /\
  get (js "data") (json_of_item it) = Some v /\
  get (js "timestamp") (json_of_item it) = Some (JString now).
Proof.
  intros Ha Hi Hl Hh Hp Ht Hline it. split.
  - rewrite (step_end s i e) by assumption. rewrite on_end_eq.
    cbn [h_ex h_store]. rewrite Hp, Hh. cbv zeta. rewrite Ht, Hline. reflexivity.
  - repeat split. apply categorizeData_range.
Qed.

(** The amended C5 at the body ["hello"] on a fresh process. *)
Lemma stored_reply_shape_witness :
  let s := run (rt:=node) boot [Request POST_json; DataEvent 0 (quoted (bytes_of "hello"))] in
  let e := open_exchange (34%N :: js "hello" ++ [34%N]) in
  let it := stored_item timestamp 0 (JString (js "hello")) in
  alive s = true /\
  exchanges s !! 0%nat = Some e /\
  JSON_parse (Runtime:=node) (body e) = Normal (JString (js "hello")) /\
  JSON_stringify (Runtime:=node) 0 (JString (js "hello")) = Normal (34%N :: js "hello" ++ [34%N]) /\
  exchanges (step (rt:=node) s (EndEvent 0 timestamp)) =
    [answer_with (respond 201 application_json (Some (stored_envelope it))) e] /\
  alive (step (rt:=node) s (EndEvent 0 timestamp)) = true /\
  get (js "data") (json_of_item it) = Some (JString (js "hello")).
Proof.
  intros s e it.
  assert (Ha : alive s = true) by reflexivity.
  assert (Hi : exchanges s !! 0%nat = Some e) by reflexivity.
  assert (Hl : listening e = true) by reflexivity.
  assert (Hh : head (res e) = None) by reflexivity.
  assert (Hp : JSON_parse (Runtime:=node) (body e) = Normal (JString (js "hello")))
    by reflexivity.
  assert (Hline : JSON_stringify (Runtime:=node) 0 (JString (js "hello"))
                  = Normal (34%N :: js "hello" ++ [34%N])) by reflexivity.
  destruct (stored_reply_shape (rt:=node) s 0 e timestamp (JString (js "hello")) _ _
              Ha Hi Hl Hh Hp eq_refl Hline) as (Hs & _ & _ & _ & _ & _ & Hdata & _).
  split; [exact Ha|]. split; [exact Hi|]. split; [exact Hp|]. split; [exact Hline|].
  split; [rewrite Hs; reflexivity|]. split; [rewrite Hs; reflexivity|exact Hdata].
Defined.

(** ** The size limit *)

(** A body of [n] euro signs between quotes, with [n + 2] code units
    within the limit, on a fresh process: it is stored as a text item. *)
Lemma euros_are_stored n now :
  Z.of_nat n + 2 <= MAX_BODY_SIZE ->
  let s := run (rt:=node) boot [Request POST_json; DataEvent 0 (euros n); EndEvent 0 now] in
  alive s = true /\
  exists e it,
    exchanges s !! 0%nat = Some e /\
    head (res e) = Some 201 /\
    destroyed e = false /\
    ended (res e) = [Some (stored_envelope it)] /\
    items (store s) = [it] /\
    item_type it = js "text" /\
    textItems (stats (store s)) = 1.
Proof.
  intros Hn.
  assert (Hd : Buffer_toString (Runtime:=node) (euros n)
               = 34%N :: repeat 8364%N n ++ [34%N])
    by apply BuiltinFacts.utf8_decode_euros.
  assert (Hp : JSON_parse (Runtime:=node) (Buffer_toString (Runtime:=node) (euros n))
               = Normal (JString (repeat 8364%N n))).
  { rewrite Hd. apply BuiltinFacts.json_parse_euros. }
  assert (Hl : Z.of_nat (length (Buffer_toString (Runtime:=node) (euros n)))
               <= MAX_BODY_SIZE).
  { rewrite Hd. cbn [length]. rewrite length_app, repeat_length. cbn [length]. lia. }
  generalize dependent (euros n). intros chunk _ Hp Hl. cbv zeta.
  change [Request POST_json; DataEvent 0 chunk; EndEvent 0 now]
    with ([Request POST_json; DataEvent 0 chunk] ++ [EndEvent 0 now]).
  rewrite run_snoc, (post_within_limit (rt:=node) _ Hl).
  erewrite step_end; [|reflexivity..].
  rewrite on_end_eq. cbn [h_ex h_store body open_exchange]. rewrite Hp.
  cbn [head res]. cbv zeta.
  destruct (JSON_stringify 2 _) eqn:E2;
    [|exfalso; revert E2; apply json_stringify_returns;
      rewrite depth_stored_envelope; unfold Builtins.stack_depth; cbn; lia].
  destruct (JSON_stringify 0 _) eqn:E0;
    [|exfalso; revert E0; apply json_stringify_returns; cbn; lia].
  cbn. split; [reflexivity|]. eexists. eexists. repeat split.
Qed.

(** C8: the limit is applied to [body.length], the number of UTF-16 code
    units of the decoded text, not to the number of bytes received.  A
    well-formed body of 1,048,577 bytes (349,525 euro signs between
    quotes, 349,527 code units) is more than 1024*1024 bytes, yet it is
    answered with 201, the connection is not destroyed, and an item is
    stored. *)
Theorem multibyte_body_over_1MB_is_stored now :
  let s := run (rt:=node) boot
             [Request POST_json; DataEvent 0 multibyte_body; EndEvent 0 now] in
  Z.of_nat (length multibyte_body) = 1048577 /\
  Z.of_nat (length multibyte_body) > 1024 * 1024 /\
  alive s = true /\
  exists e it,
    exchanges s !! 0%nat = Some e /\
    head (res e) = Some 201 /\
    destroyed e = false /\
    ended (res e) = [Some (stored_envelope it)] /\
    items (store s) = [it] /\
    item_type it = js "text" /\
    textItems (stats (store s)) = 1.
Proof.
  unfold multibyte_body.
  assert (Hlen : Z.of_nat (length (euros (N.to_nat 349525))) = 1048577).
  { rewrite BuiltinFacts.length_euros, Nat2Z.inj_add, Nat2Z.inj_mul, N_nat_Z. reflexivity. }
  cbv zeta. split; [exact Hlen|]. split; [rewrite Hlen; reflexivity|].
  apply euros_are_stored. rewrite N_nat_Z. unfold MAX_BODY_SIZE. lia.
Qed.

(** ** One response per request *)

(** C7, as stated, fails on the OPTIONS path: the handler answers with
    [res.end()] without a body, so one response is sent but no
    envelope. *)
Lemma options_reply_has_no_envelope :
  let s := run (rt:=node) boot [Request OPTIONS_any] in
  exists e,
    exchanges s !! 0%nat = Some e /\
    head (res e) = Some 200 /\
    ended (res e) = [None] /\
    length (envelopes e) = 0%nat /\
    length (envelopes e) <> 1%nat.
Proof.
  cbv zeta. eexists. split; [vm_compute; reflexivity|]. repeat split. discriminate.
Qed.

Section Responses.
Context `{rt : Runtime}.

Lemma first_answer_responses r d :
  is_post_json r = false -> handler_returns r d = true ->
  responses (first_answer r d) = 1%nat.
Proof.
  unfold is_post_json, handler_returns, first_answer. intros ->.
  destruct (strict_eq (method r) (js "OPTIONS")); [reflexivity|].
  destruct (strict_eq (method r) (js "GET") && strict_eq (url r) (js "/json"));
    [|reflexivity].
  destruct (JSON_stringify 2 (listing_envelope d)); [reflexivity|discriminate].
Qed.

(** In a reachable state an exchange has sent nothing and waits for its
    body, or holds one reply, or holds a head without a body; the last
    only when the process has ended. *)
Lemma exchange_shapes ins i e :
  exchanges (run boot ins) !! i = Some e ->
  (head (res e) = None /\ ended (res e) = [] /\
   listening e = true /\ destroyed e = false) \/
  (exists c p, head (res e) = Some c /\ ended (res e) = [p] /\
               well_formed_reply (req e) p) \/
  (exists c, head (res e) = Some c /\ ended (res e) = [] /\
             alive (run boot ins) = false).
Proof.
  intros Hi. destruct (run_inv ins boot boot_inv) as (_ & Hex & Hc).
  destruct (Forall_lookup_1 _ _ _ _ Hex Hi) as [_ He].
  destruct (head (res e)) as [c|] eqn:Eh, (ended (res e)) as [|p [|]] eqn:Ee;
    try contradiction.
  - right. right. exists c. repeat split.
    destruct (alive (run boot ins)); [|reflexivity].
    pose proof (Forall_lookup_1 _ _ _ _ (Hc eq_refl) Hi) as Hcomp.
    unfold complete in Hcomp. rewrite Eh, Ee in Hcomp.
    exfalso. now apply Hcomp.
  - right. left. eauto.
  - left. tauto.
Qed.

End Responses.

(** C7, amended: [res.end] is never called twice for a request, and what
    it is given is a JSON envelope with a [status] member on every path
    except OPTIONS, whose response has no body.  While the process runs,
    every request that is not waiting for its body has exactly one
    response.  The response is sent at once for a request that is not a
    POST to /json (OPTIONS, unknown endpoint, and GET /json provided
    [JSON.stringify] returns on the listing), and for a POST to /json
    when a ['data'] event takes the body over the limit or when its
    ['end'] event is handled (on a parse failure, and on a parsed body
    provided [JSON.stringify] returns on the reply). *)
Theorem one_response_per_request `{rt : Runtime} ins :
  let s := run boot ins in
  (forall i e, exchanges s !! i = Some e ->
     (responses e <= 1)%nat /\
     (alive s = true -> listening e = false \/ destroyed e = true ->
      responses e = 1%nat) /\
     (forall p, In p (ended (res e)) -> well_formed_reply (req e) p)) /\
  (forall r, alive s = true -> is_post_json r = false ->
     (strict_eq (method r) (js "GET") && strict_eq (url r) (js "/json") = true ->
      is_normal (JSON_stringify 2 (listing_envelope (bump_totalRequests (store s))))
      = true) ->
     exists e, exchanges (step s (Request r)) !! length (exchanges s) = Some e /\
               responses e = 1%nat) /\
  (forall i e now, alive s = true -> exchanges s !! i = Some e -> listening e = true ->
     (forall v, head (res e) = None -> JSON_parse (body e) = Normal v ->
        is_normal (JSON_stringify 2
          (stored_envelope (stored_item now (length (items (store s))) v))) = true) ->
     exists e', exchanges (step s (EndEvent i now)) !! i = Some e' /\
                responses e' = 1%nat) /\
  (forall i e chunk, alive s = true -> exchanges s !! i = Some e -> listening e = true ->
     Z.of_nat (length (body e ++ Buffer_toString chunk)) > MAX_BODY_SIZE ->
     exists e', exchanges (step s (DataEvent i chunk)) !! i = Some e' /\
                responses e' = 1%nat).
Proof.
  intros s. pose proof (exchange_shapes ins) as Hone. fold s in Hone.
  split; [|split; [|split]].
  - intros i e Hi. unfold responses.
    destruct (Hone i e Hi)
      as [(_ & -> & Hl & Hd)|[(c & p & _ & -> & Hp)|(c & _ & -> & Hdead)]]; cbn.
    + split; [lia|]. split; [|tauto]. intros _ [E|E]; congruence.
    + split; [lia|]. split; [reflexivity|]. intros q [<-|[]]. exact Hp.
    + split; [lia|]. split; [congruence|tauto].
  - intros r Ha Hr Hs. rewrite step_request by assumption. cbn [exchanges].
    eexists. split; [now apply list_lookup_middle|].
    apply first_answer_responses; [assumption|]. rewrite handler_returns_spec.
    destruct (strict_eq (method r) (js "GET") && strict_eq (url r) (js "/json"));
      [now apply Hs|reflexivity].
  - intros i e now Ha Hi Hl Hs. rewrite (step_end s i e) by assumption.
    rewrite on_end_eq. cbn [h_ex h_store]. unfold responses.
    destruct (Hone i e Hi)
      as [(Hh & He & _)|[(c & p & Hh & He & _)|(c & _ & _ & Hdead)]];
      [| |congruence]; rewrite Hh.
    + destruct (JSON_parse (body e)) as [v|msg]; cbv zeta.
      * specialize (Hs v Hh eq_refl).
        destruct (JSON_stringify 2 _); [|discriminate].
        destruct (JSON_stringify 0 v); cbn [exchanges];
          (eexists; split; [apply list_lookup_insert_eq; now apply lookup_lt_Some with e|]);
          cbn; rewrite He; reflexivity.
      * cbn [exchanges].
        eexists; split; [apply list_lookup_insert_eq; now apply lookup_lt_Some with e|].
        cbn; rewrite He; reflexivity.
    + destruct (JSON_parse (body e)); cbn [exchanges];
        (eexists; split; [apply list_lookup_insert_eq; now apply lookup_lt_Some with e|]);
        cbn; rewrite He; reflexivity.
  - intros i e chunk Ha Hi Hl Hgt. rewrite (step_data s i e) by assumption.
    rewrite on_data_eq. cbn [h_ex h_store body]. unfold responses.
    destruct (Z.gtb_spec (Z.of_nat (length (body e ++ Buffer_toString chunk))) MAX_BODY_SIZE);
      [|lia].
    destruct (Hone i e Hi)
      as [(Hh & He & _)|[(c & p & Hh & He & _)|(c & _ & _ & Hdead)]];
      [| |congruence]; rewrite Hh;
      cbn [exchanges];
      (eexists; split; [apply list_lookup_insert_eq; now apply lookup_lt_Some with e|]);
      cbn; rewrite He; reflexivity.
Qed.

(** The amended C7 after a POST whose body so far is [7]: its ['end']
    event, and a [GET /json] arriving meanwhile, are each answered
    once. *)
Lemma one_response_per_request_witness :
  let s := run (rt:=node) boot [Request POST_json; DataEvent 0 (bytes_of "7")] in
  alive s = true /\
  exchanges s !! 0%nat = Some (open_exchange (js "7")) /\
  (exists e', exchanges (step (rt:=node) s (EndEvent 0 timestamp)) !! 0%nat = Some e' /\
              responses e' = 1%nat) /\
  (exists e', exchanges (step (rt:=node) s (Request GET_json)) !! 1%nat = Some e' /\
              responses e' = 1%nat).
Proof.
  intros s.
  assert (Ha : alive s = true) by reflexivity.
  assert (Hi : exchanges s !! 0%nat = Some (open_exchange (js "7"))) by reflexivity.
  destruct (one_response_per_request (rt:=node)
              [Request POST_json; DataEvent 0 (bytes_of "7")])
    as (_ & Hreq & Hend & _).
  split; [exact Ha|]. split; [exact Hi|]. split.
  - apply (Hend 0%nat (open_exchange (js "7")) timestamp Ha Hi eq_refl).
    intros v _ Hv. vm_compute in Hv. injection Hv as <-. vm_compute. reflexivity.
  - apply (Hreq GET_json Ha eq_refl). intros _. vm_compute. reflexivity.
Defined.

(** ** The counters *)

(** C9: after every sequence of inputs the three type counters add up to
    at most the number of stored items, and to strictly less as soon as
    an item of kind array or unknown is stored: such an item is appended
    but changes no type counter. *)
Theorem counters_bounded_by_items `{rt : Runtime} ins :
  let d := store (run boot ins) in
  let counted := textItems (stats d) + numericItems (stats d) + objectItems (stats d) in
  counted <= Z.of_nat (length (items d)) /\
  ((exists it, In it (items d) /\ uncounted it) -> counted < Z.of_nat (length (items d))) /\
  (forall kind st, kind = js "array" \/ kind = js "unknown" -> count_kind kind st = st).
Proof.
  intros d counted. destruct (run_inv ins boot boot_inv) as [(Ht & Hn & Ho & Hk) _].
  fold d in Ht, Hn, Ho, Hk. subst counted. rewrite Ht, Hn, Ho.
  pose proof (tally_partition _ Hk) as Hsum.
  pose proof (tally_nonneg (js "array") (items d)).
  pose proof (tally_nonneg (js "unknown") (items d)).
  split; [lia|]. split.
  - intros (it & Hin & Hu). pose proof (tally_uncounted _ _ Hin Hu). lia.
  - intros kind st [->| ->]; reflexivity.
Qed.

(** C9 after an array, a boolean and a number were stored: one counted
    item out of three. *)
Lemma counters_bounded_by_items_witness :
  let d := store (run (rt:=node) boot
             [Request POST_json; DataEvent 0 (bytes_of "[1,2,3]"); EndEvent 0 timestamp;
              Request POST_json; DataEvent 1 (bytes_of "true"); EndEvent 1 timestamp;
              Request POST_json; DataEvent 2 (bytes_of "7"); EndEvent 2 timestamp]) in
  List.map item_type (items d) = [js "array"; js "unknown"; js "numeric"] /\
  textItems (stats d) + numericItems (stats d) + objectItems (stats d)
    < Z.of_nat (length (items d)).
Proof.
  intros d. split; [reflexivity|].
  apply (counters_bounded_by_items (rt:=node)).
  exists (stored_item timestamp 0 (JArray [num 1; num 2; num 3])).
  split; [vm_compute; left; reflexivity|left; reflexivity].
Defined.

(** ** GET /json *)

(** C10: handling GET /json leaves the stored items and the three type
    counters as they were and adds one to [totalRequests]; the exchanges
    of other requests are not touched.  When [JSON.stringify] returns on
    the listing, the reply lists the store with the incremented
    [totalRequests] and the process goes on. *)
Theorem get_json_changes_only_totalRequests `{rt : Runtime} s :
  alive s = true ->
  let s' := step s (Request GET_json) in
  items (store s') = items (store s) /\
  textItems (stats (store s')) = textItems (stats (store s)) /\
  numericItems (stats (store s')) = numericItems (stats (store s)) /\
  objectItems (stats (store s')) = objectItems (stats (store s)) /\
  totalRequests (stats (store s')) = totalRequests (stats (store s)) + 1 /\
  (forall i e, exchanges s !! i = Some e -> exchanges s' !! i = Some e) /\
  length (exchanges s') = S (length (exchanges s)) /\
  (forall text, JSON_stringify 2 (listing_envelope (store s')) = Normal text ->
     alive s' = true /\
     exists e, exchanges s' !! length (exchanges s) = Some e /\
               listening e = false /\
               head (res e) = Some 200 /\
               ended (res e) = [Some (listing_envelope (store s'))]).
Proof.
  intros Ha s'. subst s'. rewrite step_request by assumption.
  cbn [store exchanges alive items stats bump_totalRequests incr_totalRequests
       textItems numericItems objectItems totalRequests].
  do 5 (split; [reflexivity|]).
  split; [intros i e Hi; now apply lookup_app_l_Some|].
  split; [rewrite length_app; cbn [length]; lia|].
  intros text Ht.
  change {| items := items (store s); stats := incr_totalRequests (stats (store s)) |}
    with (bump_totalRequests (store s)) in Ht.
  unfold handler_returns, first_answer, GET_json. cbn [method url]. literals.
  cbn [andb]. rewrite Ht. split; [reflexivity|].
  eexists. split; [now apply list_lookup_middle|]. repeat split.
Qed.

(** C10 on a process that has stored one number. *)
Lemma get_json_changes_only_totalRequests_witness :
  let s := run (rt:=node) boot
             [Request POST_json; DataEvent 0 (bytes_of "7"); EndEvent 0 timestamp] in
  let s' := step (rt:=node) s (Request GET_json) in
  alive s = true /\
  items (store s') = items (store s) /\
  totalRequests (stats (store s)) = 1 /\
  totalRequests (stats (store s')) = 2 /\
  is_normal (JSON_stringify (Runtime:=node) 2 (listing_envelope (store s'))) = true /\
  alive s' = true.
Proof.
  intros s s'.
  assert (Ha : alive s = true) by reflexivity.
  destruct (get_json_changes_only_totalRequests (rt:=node) s Ha)
    as (Hitems & _ & _ & _ & Htotal & _ & _ & Hreply).
  fold s' in Htotal, Hreply.
  split; [exact Ha|]. split; [exact Hitems|]. split; [reflexivity|].
  split; [rewrite Htotal; reflexivity|].
  destruct (JSON_stringify (Runtime:=node) 2 (listing_envelope (store s'))) as [text|msg]
    eqn:E; [|vm_compute in E; discriminate].
  split; [reflexivity|]. exact (proj1 (Hreply text eq_refl)).
Defined.

(** ** Start-up *)

(** C6: the host constant is 127.0.0.1, and the only socket the script
    binds, by its single [server.listen] call, is bound to that
    constant. *)
Theorem listens_on_loopback_only :
  LOOPBACK_HOST = js "127.0.0.1" /\
  bound_hosts main = [LOOPBACK_HOST] /\
  Forall (fun host => host = js "127.0.0.1") (bound_hosts main).
Proof. repeat split. repeat constructor. Qed.

(** * Further properties of the handler *)

(** ** The listeners as functions *)

Section Further.
Context `{rt : Runtime}.

Lemma step_data_eq s i e chunk :
  alive s = true -> exchanges s !! i = Some e -> listening e = true ->
  step s (DataEvent i chunk) =
  {| store := store s;
     exchanges := <[i := fst (after_data (Buffer_toString chunk) e)]> (exchanges s);
     alive := snd (after_data (Buffer_toString chunk) e) |}.
Proof.
  intros Ha Hi Hl. rewrite (step_data s i e) by assumption. rewrite on_data_eq.
  unfold after_data. cbn [h_ex h_store body].
  destruct (Z.of_nat (length (body e ++ Buffer_toString chunk)) >? MAX_BODY_SIZE);
    [destruct (head (res e))|]; reflexivity.
Qed.


Lemma step_end_eq s i e now :
  alive s = true -> exchanges s !! i = Some e -> listening e = true ->
  step s (EndEvent i now) =
  let '(d, e', a) := after_end (JSON_parse (body e)) now (store s) e in
  {| store := d; exchanges := <[i := e']> (exchanges s); alive := a |}.
Proof.
  intros Ha Hi Hl. rewrite (step_end s i e) by assumption. rewrite on_end_eq.
  unfold after_end. cbn [h_ex h_store].
  destruct (JSON_parse (body e)); destruct (head (res e)); try reflexivity.
  cbv zeta. destruct (JSON_stringify 2 _); [|reflexivity].
  destruct (JSON_stringify 0 _); reflexivity.
Qed.

(** Every step is one of: nothing happens; a request is answered or
    opened; a listener of an open exchange runs. *)
Lemma step_cases s inp :
  step s inp = s \/
  (exists r, inp = Request r /\ alive s = true /\
     step s inp =
     {| store := bump_totalRequests (store s);
        exchanges := exchanges s ++ [first_answer r (bump_totalRequests (store s))];
        alive := handler_returns r (bump_totalRequests (store s)) |}) \/
  (exists i e chunk, inp = DataEvent i chunk /\ alive s = true /\
     exchanges s !! i = Some e /\ listening e = true /\
     step s inp =
     {| store := store s;
        exchanges := <[i := fst (after_data (Buffer_toString chunk) e)]> (exchanges s);
        alive := snd (after_data (Buffer_toString chunk) e) |}) \/
  (exists i e now, inp = EndEvent i now /\ alive s = true /\
     exchanges s !! i = Some e /\ listening e = true /\
     step s inp =
     let '(d, e', a) := after_end (JSON_parse (body e)) now (store s) e in
     {| store := d; exchanges := <[i := e']> (exchanges s); alive := a |}).
Proof.
  destruct (alive s) eqn:Ha; [|left; now apply step_dead].
  destruct inp as [r|i chunk|i now].
  - right. left. exists r. split; [reflexivity|]. split; [reflexivity|].
    now apply step_request.
  - destruct (exchanges s !! i) as [e|] eqn:Hi;
      [destruct (listening e) eqn:Hl|].
    + right. right. left. exists i, e, chunk. repeat split; try assumption.
      now apply step_data_eq.
    + left. unfold step, emit. now rewrite Ha, Hi, Hl.
    + left. unfold step, emit. now rewrite Ha, Hi.
  - destruct (exchanges s !! i) as [e|] eqn:Hi;
      [destruct (listening e) eqn:Hl|].
    + right. right. right. exists i, e, now. repeat split; try assumption.
      now apply step_end_eq.
    + left. unfold step, emit. now rewrite Ha, Hi, Hl.
    + left. unfold step, emit. now rewrite Ha, Hi.
Qed.

Lemma run_cons s inp ins : run s (inp :: ins) = run (step s inp) ins.
Proof. reflexivity. Qed.

Lemma run_induction (P : Server -> Prop) :
  P boot -> (forall s inp, P s -> P (step s inp)) -> forall ins, P (run boot ins).
Proof.
  intros H0 Hstep ins. generalize boot H0. induction ins as [|inp ins IH]; intros s Hs.
  - exact Hs.
  - rewrite run_cons. apply IH. now apply Hstep.
Qed.

End Further.

(** ** More facts about the derived forms *)

Section Answers.
Context `{rt : Runtime}.

Lemma first_answer_POST d : first_answer POST_json d = open_exchange [].
Proof. unfold first_answer, POST_json. cbn [method url]. literals. reflexivity. Qed.

Lemma handler_returns_POST d : handler_returns POST_json d = true.
Proof. unfold handler_returns, POST_json. cbn [method url]. literals. reflexivity. Qed.

Lemma first_answer_listening r d : listening (first_answer r d) = is_post_json r.
Proof.
  unfold first_answer, is_post_json.
  destruct (strict_eq (method r) (js "OPTIONS")) eqn:Eo.
  - apply strict_eq_true in Eo. rewrite Eo. reflexivity.
  - destruct (strict_eq (method r) (js "GET")) eqn:Eg.
    + apply strict_eq_true in Eg. rewrite Eg. literals.
      destruct (strict_eq (url r) (js "/json")); [|reflexivity].
      cbn [andb]. destruct (JSON_stringify 2 (listing_envelope d)); reflexivity.
    + cbn [andb].
      destruct (strict_eq (method r) (js "POST") && strict_eq (url r) (js "/json"));
        reflexivity.
Qed.

Lemma first_answer_req r d : req (first_answer r d) = r.
Proof.
  unfold first_answer.
  destruct (strict_eq (method r) (js "OPTIONS")); [reflexivity|].
  destruct (strict_eq (method r) (js "GET") && strict_eq (url r) (js "/json"));
    [destruct (JSON_stringify 2 (listing_envelope d)); reflexivity|].
  destruct (strict_eq (method r) (js "POST") && strict_eq (url r) (js "/json"));
    reflexivity.
Qed.

Lemma first_answer_shape r d : response_shape (first_answer r d).
Proof.
  unfold response_shape. rewrite first_answer_req. unfold first_answer.
  destruct (strict_eq (method r) (js "OPTIONS")) eqn:Eo.
  - cbn. split; [|reflexivity]. apply reply_options. now apply strict_eq_true in Eo.
  - destruct (strict_eq (method r) (js "GET") && strict_eq (url r) (js "/json")) eqn:Eg.
    + apply andb_true_iff in Eg. destruct Eg as [Em Eu].
      destruct (JSON_stringify 2 (listing_envelope d)); cbn; [|reflexivity].
      split; [|reflexivity]. apply reply_listing; now apply strict_eq_true.
    + destruct (is_post_json r) eqn:Ep; unfold is_post_json in Ep; rewrite Ep; cbn.
      * reflexivity.
      * split; [|reflexivity]. apply reply_not_found.
        -- now apply strict_eq_false in Eo.
        -- intros [Em Eu]. apply andb_false_iff in Eg.
           destruct Eg as [Eg|Eg]; apply strict_eq_false in Eg; contradiction.
        -- exact Ep.
Qed.

End Answers.

Lemma reply_status_agrees r code p :
  reply r code p ->
  (200 <= code < 300 /\
   (p = None \/ envelope_status p = Some (JString (js "success")))) \/
  (400 <= code < 500 /\ envelope_status p = Some (JString (js "error"))).
Proof.
  destruct 1; first [left; split; [lia|]; first [now left|now right]
                    |right; split; [lia|reflexivity]].
Qed.

Lemma count_kind_totalRequests kind s :
  totalRequests (count_kind kind s) = totalRequests s.
Proof.
  unfold count_kind.
  destruct (strict_eq kind (js "text")); [reflexivity|].
  destruct (strict_eq kind (js "numeric")); [reflexivity|].
  destruct (strict_eq kind (js "object")); reflexivity.
Qed.

Lemma after_data_req text e : req (fst (after_data text e)) = req e.
Proof.
  unfold after_data. destruct (_ >? _); [destruct (head (res e))|]; reflexivity.
Qed.

Lemma after_data_listening text e :
  listening (fst (after_data text e)) = listening e.
Proof.
  unfold after_data. destruct (_ >? _); [destruct (head (res e))|]; reflexivity.
Qed.


(** The cases of [after_end]. *)
Ltac end_cases parsed e :=
  unfold after_end; destruct parsed; destruct (head (res e)) eqn:?; cbv zeta;
  repeat match goal with
         | |- context [match JSON_stringify ?n ?x with _ => _ end] =>
             destruct (JSON_stringify n x)
         end.

Section AfterEnd.
Context `{rt : Runtime}.

Lemma after_end_req parsed now d e :
  req (snd (fst (after_end parsed now d e))) = req e.
Proof. end_cases parsed e; reflexivity. Qed.

Lemma after_end_listening parsed now d e :
  listening (snd (fst (after_end parsed now d e))) = listening e.
Proof. end_cases parsed e; reflexivity. Qed.

Lemma after_end_totalRequests parsed now d e :
  totalRequests (stats (fst (fst (after_end parsed now d e)))) = totalRequests (stats d).
Proof. end_cases parsed e; cbn; rewrite ?count_kind_totalRequests; reflexivity. Qed.

(** What the ['end'] listener leaves in the store: the same items, or one
    more. *)
Lemma after_end_items parsed now d e :
  items (fst (fst (after_end parsed now d e))) =
  items d ++
  match parsed with
  | Normal v => [stored_item now (length (items d)) v]
  | Throw _ => []
  end.
Proof. end_cases parsed e; cbn; rewrite ?app_nil_r; reflexivity. Qed.

Lemma after_end_shape parsed now d e :
  is_post_json (req e) = true -> response_shape e ->
  response_shape (snd (fst (after_end parsed now d e))).
Proof.
  unfold response_shape. intros Hp Hr.
  end_cases parsed e; cbn;
    repeat match goal with H : head (res e) = _ |- _ => rewrite H in *; clear H end;
    try exact Hr;
    (destruct (ended (res e)) as [|q l]; [|contradiction]); cbn; rewrite Hr;
    try reflexivity;
    (split; [first [now apply reply_stored|now apply reply_invalid]|reflexivity]).
Qed.

End AfterEnd.

Lemma after_data_shape text e :
  is_post_json (req e) = true -> response_shape e ->
  response_shape (fst (after_data text e)).
Proof.
  unfold response_shape, after_data. intros Hp Hr.
  destruct (_ >? _); [destruct (head (res e)) eqn:Eh|]; cbn; rewrite ?Eh; try exact Hr.
  destruct (ended (res e)) as [|q l]; [|contradiction]. cbn.
  split; [now apply reply_too_large|]. rewrite Hr. reflexivity.
Qed.

(** What the shape of a response says about one on which [res.end] was
    called. *)
Lemma shape_replied e : response_shape e -> replied_properly e.
Proof.
  unfold response_shape, replied_properly.
  destruct (head (res e)) as [code|], (ended (res e)) as [|p [|]]; try tauto.
  intros [Hr _]. eauto.
Qed.

Lemma shape_headers e : response_shape e -> headers_as_set e.
Proof.
  unfold response_shape, headers_as_set.
  destruct (head (res e)) as [code|], (ended (res e)) as [|p [|]]; tauto.
Qed.

Lemma items_well_formed_snoc now v l :
  items_well_formed l -> items_well_formed (l ++ [stored_item now (length l) v]).
Proof.
  intros Hl k it Hk. apply lookup_app_Some in Hk.
  destruct Hk as [Hk|[Hge Hk]]; [now apply Hl|].
  apply list_lookup_singleton_Some in Hk. destruct Hk as [Hk <-]. cbn.
  split; [|reflexivity]. f_equal. lia.
Qed.

(** ** What every reachable state satisfies *)

Section Facts.
Context `{rt : Runtime}.

Lemma process_facts_boot : process_facts boot.
Proof.
  split; [reflexivity|]. split; [|constructor].
  intros k it Hk. cbn in Hk. now destruct k.
Qed.


Lemma process_facts_step s inp : process_facts s -> process_facts (step s inp).
Proof.
  intros (Ht & Hi & He).
  destruct (step_cases s inp)
    as [->|[(r & _ & _ & ->)|[(i & e & chunk & _ & _ & Hl & Hli & ->)
                             |(i & e & now & _ & _ & Hl & Hli & ->)]]].
  - exact (conj Ht (conj Hi He)).
  - split; [|split]; cbn [store exchanges].
    + cbn. rewrite Ht, length_app. cbn [length]. lia.
    + exact Hi.
    + apply Forall_app. split; [exact He|]. constructor; [|constructor].
      split.
      * unfold reads_body_iff_post. now rewrite first_answer_listening, first_answer_req.
      * apply first_answer_shape.
  - destruct (Forall_lookup_1 _ _ _ _ He Hl) as (Hp & Hr).
    unfold reads_body_iff_post in Hp. rewrite Hli in Hp. symmetry in Hp.
    split; [|split]; cbn [store exchanges].
    + now rewrite length_insert.
    + exact Hi.
    + apply Forall_insert; [exact He|].
      split; [|now apply after_data_shape].
      unfold reads_body_iff_post. now rewrite after_data_listening, after_data_req, Hli.
  - destruct (Forall_lookup_1 _ _ _ _ He Hl) as (Hp & Hr).
    unfold reads_body_iff_post in Hp. rewrite Hli in Hp. symmetry in Hp.
    pose proof (after_end_totalRequests (JSON_parse (body e)) now (store s) e) as Ht'.
    pose proof (after_end_items (JSON_parse (body e)) now (store s) e) as Hi'.
    pose proof (after_end_req (JSON_parse (body e)) now (store s) e) as Hq'.
    pose proof (after_end_listening (JSON_parse (body e)) now (store s) e) as Hl'.
    pose proof (after_end_shape (JSON_parse (body e)) now (store s) e Hp Hr) as Hr'.
    destruct (after_end (JSON_parse (body e)) now (store s) e) as [[d e'] a].
    cbn [fst snd] in *. split; [|split]; cbn [store exchanges].
    + now rewrite Ht', length_insert.
    + rewrite Hi'. destruct (JSON_parse (body e)).
      * now apply items_well_formed_snoc.
      * now rewrite app_nil_r.
    + apply Forall_insert; [exact He|]. split; [|exact Hr'].
      unfold reads_body_iff_post. now rewrite Hl', Hq', Hli.
Qed.

Lemma process_facts_run ins : process_facts (run boot ins).
Proof.
  apply (run_induction process_facts); [apply process_facts_boot|].
  intros s inp. apply process_facts_step.
Qed.

(** One step leaves the stored items in place and may append to them. *)
Lemma step_items s inp :
  exists new, items (store (step s inp)) = items (store s) ++ new.
Proof.
  destruct (step_cases s inp)
    as [->|[(r & _ & _ & ->)|[(i & e & chunk & _ & _ & Hl & Hli & ->)
                             |(i & e & now & _ & _ & Hl & Hli & ->)]]].
  - exists []. now rewrite app_nil_r.
  - exists []. cbn. now rewrite app_nil_r.
  - exists []. cbn. now rewrite app_nil_r.
  - pose proof (after_end_items (JSON_parse (body e)) now (store s) e) as Hi'.
    destruct (after_end (JSON_parse (body e)) now (store s) e) as [[d e'] a].
    cbn [fst snd store] in *. eauto.
Qed.

(** One step leaves the response of an answered exchange as it is. *)
Lemma step_keeps_reply s inp i e :
  exchanges s !! i = Some e -> head (res e) <> None ->
  exists e', exchanges (step s inp) !! i = Some e' /\ res e' = res e.
Proof.
  intros Hi Hh.
  assert (Hlt : (i < length (exchanges s))%nat) by now apply lookup_lt_Some with e.
  destruct (step_cases s inp)
    as [->|[(r & _ & _ & ->)|[(j & ej & chunk & _ & _ & Hl & Hli & ->)
                             |(j & ej & now & _ & _ & Hl & Hli & ->)]]].
  - eauto.
  - exists e. split; [|reflexivity]. cbn. now apply lookup_app_l_Some.
  - cbn [exchanges]. destruct (decide (j = i)) as [->|Hne].
    + rewrite Hl in Hi. injection Hi as ->.
      eexists. split; [now apply list_lookup_insert_eq|].
      unfold after_data. destruct (_ >? _); [|reflexivity].
      destruct (head (res e)); [reflexivity|contradiction].
    + exists e. split; [|reflexivity]. now rewrite list_lookup_insert_ne.
  - destruct (after_end (JSON_parse (body ej)) now (store s) ej) as [[d e'] a] eqn:E.
    cbn [exchanges]. destruct (decide (j = i)) as [->|Hne].
    + rewrite Hl in Hi. injection Hi as ->.
      eexists. split; [now apply list_lookup_insert_eq|].
      unfold after_end in E.
      destruct (JSON_parse (body e)); destruct (head (res e));
        first [contradiction|now injection E as _ <- _].
    + exists e. split; [|reflexivity]. now rewrite list_lookup_insert_ne.
Qed.

End Facts.

(** ** The store *)

(** X1: [totalRequests] is the number of requests the handler was called
    for, whatever their method, URL and outcome. *)
Theorem totalRequests_counts_requests `{rt : Runtime} ins :
  let s := run boot ins in
  totalRequests (stats (store s)) = Z.of_nat (length (exchanges s)).
Proof. intros s. apply (process_facts_run ins). Qed.

(** X2: stored item number [k] (counting from 0) has id [k + 1], so ids
    are 1, 2, 3, ... without gaps or repeats, and the type recorded with
    an item is the kind of the data recorded with it. *)
Theorem stored_items_well_formed `{rt : Runtime} ins k it :
  items (store (run boot ins)) !! k = Some it ->
  item_id it = Z.of_nat k + 1 /\ item_type it = categorizeData (item_data it).
Proof. destruct (process_facts_run ins) as (_ & Hi & _). apply Hi. Qed.

(** X2 at the second of two stored values. *)
Lemma stored_items_well_formed_witness :
  let ins := [Request POST_json; DataEvent 0 (bytes_of "[1,2,3]"); EndEvent 0 timestamp;
              Request POST_json; DataEvent 1 (bytes_of "7"); EndEvent 1 timestamp] in
  let it := stored_item timestamp 1 (num 7) in
  items (store (run (rt:=node) boot ins)) !! 1%nat = Some it /\
  item_id it = 2 /\ item_type it = categorizeData (item_data it).
Proof.
  intros ins it.
  assert (Hk : items (store (run (rt:=node) boot ins)) !! 1%nat = Some it)
    by (vm_compute; reflexivity).
  split; [exact Hk|]. exact (stored_items_well_formed (rt:=node) ins 1 it Hk).
Defined.

Lemma appended_items_from `{rt : Runtime} s ins :
  exists more, items (store (run s ins)) = items (store s) ++ more.
Proof.
  revert s. induction ins as [|inp ins IH]; intros s.
  - exists []. cbn. now rewrite app_nil_r.
  - rewrite run_cons. destruct (step_items s inp) as [new Hnew].
    destruct (IH (step s inp)) as [more Hmore].
    exists (new ++ more). rewrite Hmore, Hnew. now rewrite app_assoc.
Qed.

(** X3: the store is append-only: whatever inputs follow, the items
    stored so far stay where they are, unchanged. *)
Theorem items_only_appended `{rt : Runtime} s ins :
  items (store s) `prefix_of` items (store (run s ins)).
Proof. apply appended_items_from. Qed.

(** X4: each type counter is exactly the number of stored items of its
    kind. *)
Theorem counters_are_tallies `{rt : Runtime} ins :
  let d := store (run boot ins) in
  textItems (stats d) = tally (js "text") (items d) /\
  numericItems (stats d) = tally (js "numeric") (items d) /\
  objectItems (stats d) = tally (js "object") (items d).
Proof.
  intros d. destruct (run_inv ins boot boot_inv) as [(Ht & Hn & Ho & _) _].
  now repeat split.
Qed.

(** X10: a ['data'] event never touches the store; a new request only
    increments [totalRequests]; an ['end'] event leaves [totalRequests]
    alone. *)
Theorem store_is_changed_only_as_follows `{rt : Runtime} s inp :
  match inp with
  | DataEvent _ _ => store (step s inp) = store s
  | Request _ =>
      items (store (step s inp)) = items (store s) /\
      textItems (stats (store (step s inp))) = textItems (stats (store s)) /\
      numericItems (stats (store (step s inp))) = numericItems (stats (store s)) /\
      objectItems (stats (store (step s inp))) = objectItems (stats (store s)) /\
      totalRequests (stats (store (step s inp))) =
        totalRequests (stats (store s)) + (if alive s then 1 else 0)
  | EndEvent _ _ =>
      totalRequests (stats (store (step s inp))) = totalRequests (stats (store s))
  end.
Proof.
  destruct (step_cases s inp)
    as [E|[(r & -> & Ha & ->)|[(i & e & chunk & -> & _ & _ & _ & ->)
                              |(i & e & now & -> & _ & _ & _ & ->)]]].
  - destruct inp as [r| |]; rewrite E; [|reflexivity..].
    destruct (alive s) eqn:Ha; [|repeat split; lia].
    rewrite step_request in E by assumption.
    apply (f_equal (fun x => totalRequests (stats (store x)))) in E. cbn in E. lia.
  - rewrite Ha. cbn. repeat split.
  - reflexivity.
  - pose proof (after_end_totalRequests (JSON_parse (body e)) now (store s) e) as Ht.
    destruct (after_end (JSON_parse (body e)) now (store s) e) as [[d e'] a].
    exact Ht.
Qed.

(** ** Classification, read backwards *)

(** X5: the kind determines the JSON type, except that [object] stands
    for objects and for [null]. *)
Theorem categorizeData_inverse v :
  (categorizeData v = js "text" <-> exists s, v = JString s) /\
  (categorizeData v = js "numeric" <-> exists x, v = JNumber x) /\
  (categorizeData v = js "array" <-> exists elems, v = JArray elems) /\
  (categorizeData v = js "object" <-> v = JNull \/ exists fields, v = JObject fields) /\
  (categorizeData v = js "unknown" <-> exists b, v = JBool b).
Proof.
  rewrite categorizeData_cases.
  destruct v; repeat split;
    try discriminate; try (intros _; eauto; fail);
    try (intros [? ?]; discriminate);
    try (intros [?|[? ?]]; discriminate).
Qed.

(** ** Routing *)

(** X6: a request that is neither OPTIONS, nor GET /json, nor POST /json
    is answered 404 with the [Endpoint not found] envelope; no listener
    is registered and the store only counts the request.  The URL is
    compared as a whole, so /json with a query string or a trailing slash
    is such a request. *)
Theorem unknown_endpoint_is_404 `{rt : Runtime} s r :
  alive s = true ->
  method r <> js "OPTIONS" ->
  ~ (method r = js "GET" /\ url r = js "/json") ->
  ~ (method r = js "POST" /\ url r = js "/json") ->
  step s (Request r) =
  {| store := bump_totalRequests (store s);
     exchanges :=
       exchanges s ++
       [ {| req := r;
            res := {| headers := cors_headers ++ application_json;
                      head := Some 404;
                      ended := [Some not_found_envelope] |};
            body := []; listening := false; destroyed := false |} ];
     alive := true |}.
Proof.
  intros Ha Ho Hg Hp. rewrite step_request by assumption.
  apply strict_eq_false in Ho.
  assert (Eg : strict_eq (method r) (js "GET") && strict_eq (url r) (js "/json") = false).
  { apply not_true_is_false. intros Eg.
    apply andb_true_iff in Eg. rewrite !strict_eq_true in Eg. contradiction. }
  assert (Ep : strict_eq (method r) (js "POST") && strict_eq (url r) (js "/json") = false).
  { apply not_true_is_false. intros Ep.
    apply andb_true_iff in Ep. rewrite !strict_eq_true in Ep. contradiction. }
  unfold first_answer, handler_returns. rewrite Ho, Eg, Ep. reflexivity.
Qed.

(** X6 at GET /json?limit=1 on a fresh process. *)
Lemma unknown_endpoint_is_404_witness :
  let r := {| method := js "GET"; url := js "/json?limit=1" |} in
  exists e, exchanges (step (rt:=node) boot (Request r)) = [e] /\
            head (res e) = Some 404 /\
            ended (res e) = [Some not_found_envelope].
Proof.
  intros r. eexists. split.
  - rewrite (unknown_endpoint_is_404 (rt:=node) boot r);
      [reflexivity|reflexivity|discriminate|intros [_ E]; discriminate E
      |intros [E _]; discriminate E].
  - split; reflexivity.
Defined.

(** ** Replies *)

(** X7: every response carries the three CORS headers set at lines
    49-51, with [Access-Control-Allow-Origin: http://127.0.0.1], followed
    by the JSON content type exactly when [res.end] was given a body; a
    response whose head was written and whose body was never sent (the
    call of [JSON.stringify] threw) carries the JSON content type too. *)
Theorem every_response_has_cors_headers `{rt : Runtime} ins :
  Forall headers_as_set (exchanges (run boot ins)).
Proof.
  destruct (process_facts_run ins) as (_ & _ & He).
  eapply Forall_impl; [exact He|]. intros e (_ & Hs). now apply shape_headers.
Qed.

(** X8: [res.end] is called at most once on an exchange, and every reply
    it sends comes from the branch that fits the request: 200 without
    body only to OPTIONS, the listing only to GET /json, 201, 400 and 413
    only to POST /json, 404 only to the rest. *)
Theorem replies_fit_their_requests `{rt : Runtime} ins :
  Forall replied_properly (exchanges (run boot ins)).
Proof.
  destruct (process_facts_run ins) as (_ & _ & He).
  eapply Forall_impl; [exact He|]. intros e (_ & Hs). now apply shape_replied.
Qed.

(** X9: on every exchange on which [res.end] was called, the HTTP status
    code and the [status] member of the body agree: 200 and 201 come with
    [success] (or, for OPTIONS, with no body), 400, 404 and 413 with
    [error]. *)
Theorem status_code_agrees_with_envelope `{rt : Runtime} ins :
  Forall status_agrees (exchanges (run boot ins)).
Proof.
  destruct (process_facts_run ins) as (_ & _ & He).
  eapply Forall_impl; [exact He|]. intros e (_ & Hs).
  apply shape_replied in Hs. unfold replied_properly in Hs. unfold status_agrees.
  destruct (ended (res e)) as [|p [|]]; try exact Hs.
  destruct Hs as (code & Hh & Hr). exists code. split; [exact Hh|].
  now apply reply_status_agrees with (req e).
Qed.

(** X11: once an exchange is answered, its response (status code, headers
    and body) is never changed by anything that follows. *)
Theorem reply_is_final `{rt : Runtime} s ins i e :
  exchanges s !! i = Some e -> head (res e) <> None ->
  exists e', exchanges (run s ins) !! i = Some e' /\ res e' = res e.
Proof.
  revert s e. induction ins as [|inp ins IH]; intros s e Hi Hh.
  - exists e. now split.
  - rewrite run_cons. destruct (step_keeps_reply s inp i e Hi Hh) as (e1 & Hi1 & Hr1).
    destruct (IH (step s inp) e1 Hi1) as (e2 & Hi2 & Hr2); [now rewrite Hr1|].
    exists e2. split; [exact Hi2|]. now rewrite Hr2.
Qed.

(** X11 at a 400 reply followed by more data and a second ['end']. *)
Lemma reply_is_final_witness :
  let s := run (rt:=node) boot
             [Request POST_json; DataEvent 0 (bytes_of "oops"); EndEvent 0 timestamp] in
  let e := answer_with (respond 400 application_json (Some (invalid_envelope SyntaxError)))
             (open_exchange (js "oops")) in
  exchanges s !! 0%nat = Some e /\
  exists e', exchanges (run (rt:=node) s
                          [DataEvent 0 (bytes_of "[]"); EndEvent 0 timestamp;
                           Request GET_json]) !! 0%nat = Some e' /\
             res e' = res e.
Proof.
  intros s e.
  assert (Hi : exchanges s !! 0%nat = Some e) by (vm_compute; reflexivity).
  split; [exact Hi|].
  apply (reply_is_final (rt:=node) s _ 0%nat e Hi). discriminate.
Defined.

(** ** The body *)

Lemma grown_nil e : grown [] e = e.
Proof. destruct e. unfold grown. cbn. now rewrite app_nil_r. Qed.

Lemma grown_grown a b e : grown b (grown a e) = grown (a ++ b) e.
Proof. unfold grown. cbn. now rewrite app_assoc. Qed.

(** X12: while the accumulated text stays within the limit, the ['data']
    events of a request do nothing but append: after all of them [body]
    is the old [body] followed by the decoded chunks in order, and the
    store, the response and the other exchanges are as before.  So what
    ['end'] parses is the concatenation of the chunks, each decoded on
    its own. *)
Theorem body_is_concatenation_of_chunks `{rt : Runtime} s i e chunks :
  alive s = true -> exchanges s !! i = Some e -> listening e = true ->
  Z.of_nat (length (body e ++ concat (List.map Buffer_toString chunks))) <= MAX_BODY_SIZE ->
  run s (List.map (DataEvent i) chunks) =
  {| store := store s;
     exchanges := <[i := grown (concat (List.map Buffer_toString chunks)) e]> (exchanges s);
     alive := true |}.
Proof.
  revert s e. induction chunks as [|c chunks IH]; intros s e Ha Hi Hl Hle.
  - cbn. rewrite grown_nil, list_insert_id by assumption. destruct s. cbn in Ha.
    now rewrite Ha.
  - cbn [List.map concat] in *. rewrite run_cons.
    rewrite app_assoc, length_app in Hle.
    rewrite (step_data_eq s i e) by assumption. unfold after_data.
    destruct (Z.gtb_spec (Z.of_nat (length (body e ++ Buffer_toString c))) MAX_BODY_SIZE);
      [lia|]. cbn [fst snd].
    assert (Hlt : (i < length (exchanges s))%nat) by now apply lookup_lt_Some with e.
    rewrite (IH _ (grown (Buffer_toString c) e)); cbn [alive exchanges store body grown].
    + now rewrite list_insert_insert_eq, grown_grown.
    + reflexivity.
    + now apply list_lookup_insert_eq.
    + exact Hl.
    + rewrite length_app. lia.
Qed.

(** X12 with the text [[1, 2]] arriving in three chunks. *)
Lemma body_is_concatenation_of_chunks_witness :
  let chunks := [bytes_of "[1,"; bytes_of " 2"; bytes_of "]"] in
  run (rt:=node) (step (rt:=node) boot (Request POST_json)) (List.map (DataEvent 0) chunks) =
  {| store := bump_totalRequests dataStore;
     exchanges := [open_exchange (js "[1, 2]")];
     alive := true |}.
Proof.
  intros chunks.
  rewrite (body_is_concatenation_of_chunks (rt:=node) _ 0%nat (open_exchange []) chunks);
    [reflexivity|reflexivity|reflexivity|reflexivity|vm_compute; discriminate].
Defined.

(** X13: the limit is strict and counts UTF-16 code units: on a request
    not answered yet, a ['data'] event is answered with 413 and destroys
    the connection exactly when the accumulated text is longer than
    1,048,576; a text of exactly 1,048,576 is kept and nothing is sent.
    Either way the chunk has been appended to [body], the store is
    untouched and the listener returns. *)
Theorem size_limit_is_strict `{rt : Runtime} s i e chunk :
  alive s = true -> exchanges s !! i = Some e -> waiting e ->
  exists e',
    exchanges (step s (DataEvent i chunk)) !! i = Some e' /\
    body e' = body e ++ Buffer_toString chunk /\
    (Z.of_nat (length (body e')) > 1048576 ->
       res e' = respond 413 application_json (Some too_large_envelope) (res e) /\
       destroyed e' = true) /\
    (Z.of_nat (length (body e')) <= 1048576 ->
       res e' = res e /\ destroyed e' = destroyed e) /\
    store (step s (DataEvent i chunk)) = store s /\
    alive (step s (DataEvent i chunk)) = true.
Proof.
  intros Ha Hi [Hl Hh].
  assert (Hlt : (i < length (exchanges s))%nat) by now apply lookup_lt_Some with e.
  rewrite (step_data_eq s i e) by assumption. unfold after_data. rewrite Hh.
  change MAX_BODY_SIZE with 1048576.
  destruct (Z.gtb_spec (Z.of_nat (length (body e ++ Buffer_toString chunk))) 1048576);
    cbn [fst snd exchanges store alive];
    (eexists; split; [now apply list_lookup_insert_eq|]); cbn [body grown res destroyed].
  - split; [reflexivity|]. split; [now split|]. split; [lia|]. now split.
  - split; [reflexivity|]. split; [lia|]. repeat split.
Qed.

(** X13 at the boundary: 1,048,576 letters are kept, one more is refused. *)
Lemma size_limit_is_strict_witness :
  let s := step (rt:=node) boot (Request POST_json) in
  let full := repeat Byte.x78 (N.to_nat 1048576) in
  exists e1,
    exchanges (step (rt:=node) s (DataEvent 0 full)) !! 0%nat = Some e1 /\
    Z.of_nat (length (body e1)) = 1048576 /\
    res e1 = res (open_exchange []) /\ destroyed e1 = false.
Proof.
  intros s full.
  destruct (size_limit_is_strict (rt:=node) s 0%nat (open_exchange []) full)
    as (e1 & H1 & Hb & _ & Hle & _); [reflexivity|reflexivity|now split|].
  assert (Hlen : Z.of_nat (length (body e1)) = 1048576).
  { rewrite Hb. subst full. cbn [body open_exchange app].
    rewrite garbage_decodes, repeat_length, N_nat_Z. reflexivity. }
  exists e1. split; [exact H1|]. split; [exact Hlen|]. apply Hle. rewrite Hlen. lia.
Defined.

(** X14: a request body is read only for POST /json.  For every other
    request no listener is registered, so its ['data'] and ['end'] events
    change nothing at all; the same holds for events of a request that
    does not exist. *)
Theorem body_is_read_only_for_post_json `{rt : Runtime} ins :
  let s := run boot ins in
  Forall reads_body_iff_post (exchanges s) /\
  forall i chunk now,
    match exchanges s !! i with
    | Some e =>
        if is_post_json (req e) then True
        else step s (DataEvent i chunk) = s /\ step s (EndEvent i now) = s
    | None => step s (DataEvent i chunk) = s /\ step s (EndEvent i now) = s
    end.
Proof.
  intros s. destruct (process_facts_run ins) as (_ & _ & He). fold s in He.
  assert (Hr : Forall reads_body_iff_post (exchanges s)).
  { eapply Forall_impl; [exact He|]. now intros e (Hp & _). }
  split; [exact Hr|]. intros i chunk now.
  destruct (exchanges s !! i) as [e|] eqn:Hi.
  - pose proof (Forall_lookup_1 _ _ _ _ Hr Hi) as Hp. unfold reads_body_iff_post in Hp.
    destruct (is_post_json (req e)); [exact I|].
    unfold step, emit. rewrite Hi, Hp. now destruct (alive s).
  - unfold step, emit. rewrite Hi. now destruct (alive s).
Qed.

(** ** Composition *)

(** X15: a stored value is listed: after the ['end'] event of a POST
    /json whose body parses to [v], and provided the calls of
    [JSON.stringify] on the way return, the object serialised as the
    reply to GET /json lists every item stored before, in order, followed
    by the new item, whose [data] is [v], the value [JSON.parse]
    returned. *)
Theorem post_then_get_lists_the_item `{rt : Runtime} s i e now v :
  let s' := run s [EndEvent i now; Request GET_json] in
  let it := stored_item now (length (items (store s))) v in
  alive s = true -> exchanges s !! i = Some e -> waiting e ->
  JSON_parse (body e) = Normal v ->
  is_normal (JSON_stringify 2 (stored_envelope it)) = true ->
  is_normal (JSON_stringify 0 v) = true ->
  is_normal (JSON_stringify 2 (listing_envelope (store s'))) = true ->
  alive s' = true /\
  exists g listing,
    exchanges s' !! length (exchanges s) = Some g /\
    head (res g) = Some 200 /\
    ended (res g) = [Some listing] /\
    get (js "status") listing = Some (JString (js "success")) /\
    get (js "data") listing = Some (json_of_dataStore (store s')) /\
    get (js "items") (json_of_dataStore (store s')) =
      Some (JArray (List.map json_of_item (items (store s)) ++ [json_of_item it])) /\
    get (js "data") (json_of_item it) = Some v.
Proof.
  intros s' it Ha Hi [Hl Hh] Hp H2 H0. subst s'. unfold run. cbn [fold_left].
  rewrite (step_end_eq s i e) by assumption. unfold after_end. rewrite Hp, Hh.
  cbv zeta. fold it. destruct (JSON_stringify 2 (stored_envelope it)); [|discriminate].
  rewrite H0. rewrite step_request by reflexivity. cbn [store exchanges alive].
  intros Hg.
  assert (Hr : handler_returns GET_json
                 (bump_totalRequests
                    {| items := items (store s) ++ [it];
                       stats := count_kind (categorizeData v) (stats (store s)) |}) = true).
  { rewrite handler_returns_spec. unfold GET_json. cbn [method url]. literals.
    exact Hg. }
  split; [exact Hr|].
  unfold handler_returns, GET_json in Hr. cbn [method url] in Hr. revert Hr. literals.
  cbn [andb]. intros Hr.
  unfold first_answer at 1, GET_json at 1. cbn [method url]. literals. cbn [andb].
  destruct (JSON_stringify 2 (listing_envelope _)); [|discriminate].
  eexists. eexists. split.
  - rewrite <- (length_insert (exchanges s) i
                  (answer_with (respond 201 application_json (Some (stored_envelope it)))
                     e)).
    now apply list_lookup_middle.
  - cbn. repeat split. f_equal. f_equal. now rewrite map_app.
Qed.

(** X15 at the body [7] on a fresh process. *)
Lemma post_then_get_lists_the_item_witness :
  let s := run (rt:=node) boot [Request POST_json; DataEvent 0 (bytes_of "7")] in
  let s' := run (rt:=node) s [EndEvent 0 timestamp; Request GET_json] in
  alive s' = true /\
  exists g listing,
    exchanges s' !! 1%nat = Some g /\
    ended (res g) = [Some listing] /\
    get (js "data") listing = Some (json_of_dataStore (store s')) /\
    get (js "items") (json_of_dataStore (store s')) =
      Some (JArray [json_of_item (stored_item timestamp 0 (num 7))]).
Proof.
  intros s s'.
  destruct (post_then_get_lists_the_item (rt:=node) s 0%nat (open_exchange (js "7"))
              timestamp (num 7))
    as (Hlive & g & listing & Hg & _ & He & _ & Hd & Hitems & _);
    [reflexivity|reflexivity|now split|reflexivity
    |vm_compute; reflexivity|vm_compute; reflexivity|vm_compute; reflexivity|].
  split; [exact Hlive|].
  exists g, listing. split; [exact Hg|]. split; [exact He|]. split; [exact Hd|exact Hitems].
Defined.

(** X16: uploads do not disturb each other: the ['data'] events of two
    different requests that are still waiting can be handled in either
    order with the same result. *)
Theorem data_events_commute `{rt : Runtime} s i j ei ej ci cj :
  alive s = true -> i <> j ->
  exchanges s !! i = Some ei -> exchanges s !! j = Some ej ->
  waiting ei -> waiting ej ->
  run s [DataEvent i ci; DataEvent j cj] = run s [DataEvent j cj; DataEvent i ci].
Proof.
  intros Ha Hne Hi Hj [Hli Hhi] [Hlj Hhj]. unfold run. cbn [fold_left].
  assert (Hai : snd (after_data (Buffer_toString ci) ei) = true).
  { unfold after_data. rewrite Hhi. now destruct (_ >? _). }
  assert (Haj : snd (after_data (Buffer_toString cj) ej) = true).
  { unfold after_data. rewrite Hhj. now destruct (_ >? _). }
  rewrite (step_data_eq s i ei), (step_data_eq s j ej) by assumption.
  rewrite (step_data_eq _ j ej), (step_data_eq _ i ei);
    cbn [alive exchanges store]; try assumption.
  - rewrite Hai, Haj. f_equal. now apply list_insert_insert_ne.
  - now rewrite list_lookup_insert_ne by congruence.
  - now rewrite list_lookup_insert_ne.
Qed.

(** X16 with two uploads in flight. *)
Lemma data_events_commute_witness :
  let s := run (rt:=node) boot [Request POST_json; Request POST_json] in
  run (rt:=node) s [DataEvent 0 (bytes_of "[1"); DataEvent 1 (bytes_of "true")] =
  run (rt:=node) s [DataEvent 1 (bytes_of "true"); DataEvent 0 (bytes_of "[1")].
Proof.
  intros s.
  apply (data_events_commute (rt:=node) s 0%nat 1%nat (open_exchange []) (open_exchange []));
    [reflexivity|discriminate|reflexivity|reflexivity|now split|now split].
Defined.

(** ** Edges *)

(** X17: a POST /json without any ['data'] event has the empty string as
    its body; when [JSON.parse] rejects the empty string the request is
    answered 400 with the [Invalid JSON] envelope and nothing is
    stored. *)
Theorem empty_body_is_invalid `{rt : Runtime} s now msg :
  alive s = true -> JSON_parse [] = Throw msg ->
  run s [Request POST_json; EndEvent (length (exchanges s)) now] =
  {| store := bump_totalRequests (store s);
     exchanges :=
       exchanges s ++
       [answer_with (respond 400 application_json (Some (invalid_envelope msg)))
          (open_exchange [])];
     alive := true |}.
Proof.
  intros Ha Hp. unfold run. cbn [fold_left]. rewrite step_request by assumption.
  rewrite first_answer_POST, handler_returns_POST.
  rewrite (step_end_eq _ (length (exchanges s)) (open_exchange []));
    [|reflexivity|now apply list_lookup_middle|reflexivity].
  cbn [body open_exchange]. rewrite Hp. cbn [after_end head res open_exchange store exchanges].
  f_equal. rewrite insert_app_r_alt by lia. now rewrite Nat.sub_diag.
Qed.

(** X17 on a fresh process. *)
Lemma empty_body_is_invalid_witness :
  JSON_parse (Runtime:=node) [] = Throw SyntaxError /\
  exchanges (run (rt:=node) boot [Request POST_json; EndEvent 0 timestamp]) =
  [answer_with (respond 400 application_json (Some (invalid_envelope SyntaxError)))
     (open_exchange [])].
Proof.
  assert (Hp : JSON_parse (Runtime:=node) [] = Throw SyntaxError) by reflexivity.
  split; [exact Hp|].
  change 0%nat with (length (exchanges boot)).
  rewrite (empty_body_is_invalid (rt:=node) boot timestamp SyntaxError eq_refl Hp).
  reflexivity.
Defined.

(** X18: what ends the process.  If handling an input throws, then
    either the input is a ['data'] or ['end'] event of a POST /json
    exchange that was already answered ([res.writeHead] refuses the
    second head), or it is the ['end'] event of a waiting exchange whose
    body parses and [JSON.stringify] throws on the reply (line 112) or on
    the value (line 118), or it is a GET /json and [JSON.stringify]
    throws on the listing (line 62).  So OPTIONS, unknown endpoints, a
    new POST /json, a parse failure and the first 413 never end the
    process. *)
Theorem what_ends_the_process `{rt : Runtime} s inp :
  alive s = true -> alive (step s inp) = false ->
  (exists i e,
     exchanges s !! i = Some e /\ listening e = true /\ head (res e) <> None /\
     ((exists chunk, inp = DataEvent i chunk /\
         Z.of_nat (length (body e ++ Buffer_toString chunk)) > MAX_BODY_SIZE) \/
      (exists now, inp = EndEvent i now))) \/
  (exists i e now v,
     inp = EndEvent i now /\ exchanges s !! i = Some e /\ waiting e /\
     JSON_parse (body e) = Normal v /\
     (is_normal (JSON_stringify 2
        (stored_envelope (stored_item now (length (items (store s))) v))) = false \/
      is_normal (JSON_stringify 0 v) = false)) \/
  (exists r,
     inp = Request r /\ method r = js "GET" /\ url r = js "/json" /\
     is_normal (JSON_stringify 2 (listing_envelope (bump_totalRequests (store s))))
     = false).
Proof.
  intros Ha Hd.
  destruct (step_cases s inp)
    as [E|[(r & -> & _ & E)|[(i & e & chunk & -> & _ & Hi & Hl & E)
                            |(i & e & now & -> & _ & Hi & Hl & E)]]];
    rewrite E in Hd.
  - congruence.
  - right. right. exists r. cbn [alive] in Hd. rewrite handler_returns_spec in Hd.
    destruct (strict_eq (method r) (js "GET") && strict_eq (url r) (js "/json")) eqn:Eg;
      [|discriminate].
    apply andb_true_iff in Eg. rewrite !strict_eq_true in Eg. tauto.
  - left. exists i, e. cbn [alive] in Hd. unfold after_data in Hd.
    destruct (Z.gtb_spec (Z.of_nat (length (body e ++ Buffer_toString chunk))) MAX_BODY_SIZE);
      [|discriminate].
    destruct (head (res e)) eqn:Eh; [|discriminate].
    repeat split; try assumption; [discriminate|]. left. exists chunk. split; [reflexivity|lia].
  - unfold after_end in Hd.
    destruct (JSON_parse (body e)) as [v|msg] eqn:Ep; destruct (head (res e)) eqn:Eh;
      try discriminate.
    + left. exists i, e. repeat split; try assumption; [congruence|]. right. eauto.
    + right. left. exists i, e, now, v. split; [reflexivity|]. split; [exact Hi|].
      split; [now split|]. split; [exact Ep|].
      cbv zeta in Hd.
      destruct (JSON_stringify 2
                  (stored_envelope (stored_item now (length (items (store s))) v)));
        [right; exact Hd|left; reflexivity].
    + left. exists i, e. repeat split; try assumption; [congruence|]. right. eauto.
Qed.

(** X18 at a second ['end'] event on a request answered 400. *)
Lemma what_ends_the_process_witness :
  let s := run (rt:=node) boot
             [Request POST_json; DataEvent 0 (bytes_of "oops"); EndEvent 0 timestamp] in
  alive s = true /\
  alive (step (rt:=node) s (EndEvent 0 timestamp)) = false /\
  exists i e, exchanges s !! i = Some e /\ head (res e) <> None.
Proof.
  intros s.
  assert (Ha : alive s = true) by reflexivity.
  assert (Hd : alive (step (rt:=node) s (EndEvent 0 timestamp)) = false) by reflexivity.
  split; [exact Ha|]. split; [exact Hd|].
  destruct (what_ends_the_process (rt:=node) s _ Ha Hd)
    as [(i & e & Hi & _ & Hh & _)
       |[(i & e & now & v & Hin & Hi & [_ Hw] & _)|(r & Hr & _)]].
  - exists i, e. now split.
  - exfalso. injection Hin as <- _. vm_compute in Hi. injection Hi as <-.
    discriminate Hw.
  - discriminate Hr.
Defined.

(** X19: nothing is ever evicted: the item a 201 reply reports stays in
    the store, at the position its id names, through every later input,
    including uploads that finish in between and inputs that end the
    process. *)
Theorem stored_item_stays_listed `{rt : Runtime} s i e now v ins :
  alive s = true -> exchanges s !! i = Some e -> waiting e ->
  JSON_parse (body e) = Normal v ->
  let it := stored_item now (length (items (store s))) v in
  items (store (run s (EndEvent i now :: ins))) !! length (items (store s)) = Some it /\
  item_id it = Z.of_nat (length (items (store s))) + 1 /\
  item_data it = v.
Proof.
  intros Ha Hi [Hl Hh] Hp it. split; [|now split].
  rewrite run_cons.
  destruct (appended_items_from (step s (EndEvent i now)) ins) as [more ->].
  rewrite (step_end_eq s i e) by assumption.
  pose proof (after_end_items (JSON_parse (body e)) now (store s) e) as Hit.
  destruct (after_end (JSON_parse (body e)) now (store s) e) as [[d e'] a].
  cbn [fst store] in *. rewrite Hit, Hp, <- app_assoc. now apply list_lookup_middle.
Qed.

(** X19 with a second upload finishing after the first. *)
Lemma stored_item_stays_listed_witness :
  let s := run (rt:=node) boot
             [Request POST_json; DataEvent 0 (bytes_of "7");
              Request POST_json; DataEvent 1 (bytes_of "[]")] in
  items (store (run (rt:=node) s
                  [EndEvent 0 timestamp; EndEvent 1 timestamp; Request GET_json]))
    !! 0%nat = Some (stored_item timestamp 0 (num 7)).
Proof.
  intros s.
  apply (stored_item_stays_listed (rt:=node) s 0%nat (open_exchange (js "7"))
           timestamp (num 7) [EndEvent 1 timestamp; Request GET_json]);
    [reflexivity|reflexivity|now split|reflexivity].
Defined.

(** ** When [JSON.stringify] throws *)

(** Whether the serialiser of [Builtins] returns depends on the nesting
    alone. *)
Lemma node_serialises space v :
  is_normal (JSON_stringify (Runtime:=node) space v) = (depth v <=? stack_depth)%nat.
Proof.
  change (JSON_stringify (Runtime:=node) space v) with (json_stringify space v).
  unfold json_stringify. now destruct (depth v <=? stack_depth)%nat.
Qed.

(** One submission on a fresh process, arriving in one chunk within the
    limit, that parses and whose reply can be serialised. *)
Lemma submission_is_stored `{rt : Runtime} chunk v now :
  Z.of_nat (length (Buffer_toString chunk)) <= MAX_BODY_SIZE ->
  JSON_parse (Buffer_toString chunk) = Normal v ->
  is_normal (JSON_stringify 2 (stored_envelope (stored_item now 0 v))) = true ->
  is_normal (JSON_stringify 0 v) = true ->
  run boot [Request POST_json; DataEvent 0 chunk; EndEvent 0 now] =
  {| store := {| items := [stored_item now 0 v];
                 stats := count_kind (categorizeData v)
                            (stats (bump_totalRequests dataStore)) |};
     exchanges :=
       [answer_with (respond 201 application_json (Some (stored_envelope (stored_item now 0 v))))
          (open_exchange (Buffer_toString chunk))];
     alive := true |}.
Proof.
  intros Hle Hp H2 H0.
  change [Request POST_json; DataEvent 0 chunk; EndEvent 0 now]
    with ([Request POST_json; DataEvent 0 chunk] ++ [EndEvent 0 now]).
  rewrite run_snoc, (post_within_limit _ Hle).
  rewrite (step_end_eq _ 0 (open_exchange (Buffer_toString chunk))) by reflexivity.
  cbn [body open_exchange]. rewrite Hp. unfold after_end.
  cbn [head res open_exchange store items bump_totalRequests dataStore length].
  cbv zeta. destruct (JSON_stringify 2 _); [|discriminate]. rewrite H0. reflexivity.
Qed.

(** X20: a submission whose reply cannot be serialised.  When the body
    of a waiting POST /json parses and [JSON.stringify] throws on the
    reply (line 112), the item is stored and counted all the same, the
    head 201 is written, [res.end] is never called, and the process
    ends: the [catch] block calls [res.writeHead(400)] on the written
    head. *)
Theorem unserialisable_reply_ends_process `{rt : Runtime} s i e now v msg :
  alive s = true -> exchanges s !! i = Some e -> waiting e ->
  JSON_parse (body e) = Normal v ->
  JSON_stringify 2 (stored_envelope (stored_item now (length (items (store s))) v))
    = Throw msg ->
  step s (EndEvent i now) =
  {| store := {| items := items (store s) ++ [stored_item now (length (items (store s))) v];
                 stats := count_kind (categorizeData v) (stats (store s)) |};
     exchanges := <[i := answer_with (head_only 201 application_json) e]> (exchanges s);
     alive := false |}.
Proof.
  intros Ha Hi [Hl Hh] Hp Ht. rewrite (step_end_eq s i e) by assumption.
  unfold after_end. rewrite Hp, Hh. cbv zeta. now rewrite Ht.
Qed.

(** X20 at an array nested 5000 deep, which the serialiser of [Builtins]
    refuses. *)
Lemma unserialisable_reply_ends_process_witness :
  let s := run (rt:=node) boot
             [Request POST_json; DataEvent 0 (brackets (N.to_nat 5000))] in
  let s' := step (rt:=node) s (EndEvent 0 timestamp) in
  alive s = true /\
  alive s' = false /\
  List.map item_data (items (store s')) = [nesting (N.to_nat 4999)] /\
  exists e', exchanges s' = [e'] /\ head (res e') = Some 201 /\ ended (res e') = [].
Proof.
  intros s s'.
  assert (Ha : alive s = true) by (vm_compute; reflexivity).
  assert (Hi : exchanges s !! 0%nat
               = Some (open_exchange (Buffer_toString (Runtime:=node) (brackets (N.to_nat 5000)))))
    by (vm_compute; reflexivity).
  assert (Hp : JSON_parse (Runtime:=node)
                 (body (open_exchange
                          (Buffer_toString (Runtime:=node) (brackets (N.to_nat 5000)))))
               = Normal (nesting (N.to_nat 4999))) by (vm_compute; reflexivity).
  assert (Ht : JSON_stringify (Runtime:=node) 2
                 (stored_envelope
                    (stored_item timestamp (length (items (store s)))
                       (nesting (N.to_nat 4999))))
               = Throw RangeError) by (vm_compute; reflexivity).
  pose proof (unserialisable_reply_ends_process (rt:=node) s 0%nat _ timestamp _ _
                Ha Hi (conj eq_refl eq_refl) Hp Ht) as Hs.
  fold s' in Hs. rewrite Hs. split; [exact Ha|]. split; [reflexivity|].
  split; [reflexivity|]. eexists. split; [vm_compute; reflexivity|]. split; reflexivity.
Defined.

(** X21: a listing that cannot be serialised.  When [JSON.stringify]
    throws on the listing (line 62), the GET /json request is counted,
    the head 200 is written, [res.end] is never called, and the process
    ends: nothing catches the exception. *)
Theorem unserialisable_listing_ends_process `{rt : Runtime} s msg :
  alive s = true ->
  JSON_stringify 2 (listing_envelope (bump_totalRequests (store s))) = Throw msg ->
  step s (Request GET_json) =
  {| store := bump_totalRequests (store s);
     exchanges :=
       exchanges s ++
       [ {| req := GET_json;
            res := {| headers := cors_headers ++ application_json;
                      head := Some 200;
                      ended := [] |};
            body := []; listening := false; destroyed := false |} ];
     alive := false |}.
Proof.
  intros Ha Ht. rewrite step_request by assumption.
  unfold first_answer, handler_returns, GET_json. cbn [method url]. literals.
  cbn [andb]. now rewrite Ht.
Qed.

(** X21 after an array nested 4104 deep was stored: the reply 201 nests
    it two levels deeper and is serialised by [Builtins], the listing
    nests it four levels deeper and is not. *)
Lemma unserialisable_listing_ends_process_witness :
  let s := run (rt:=node) boot
             [Request POST_json; DataEvent 0 (brackets (N.to_nat 4104));
              EndEvent 0 timestamp] in
  let s' := step (rt:=node) s (Request GET_json) in
  alive s = true /\
  (exists e, exchanges s = [e] /\ head (res e) = Some 201 /\ responses e = 1%nat) /\
  alive s' = false /\
  exists g, exchanges s' !! 1%nat = Some g /\ head (res g) = Some 200 /\ ended (res g) = [].
Proof.
  intros s s'.
  assert (Hs : s = _) by
    (apply (submission_is_stored (rt:=node) (brackets (N.to_nat 4104))
              (nesting (N.to_nat 4103)) timestamp);
     [vm_compute; discriminate|vm_compute; reflexivity
     |rewrite node_serialises; vm_compute; reflexivity
     |rewrite node_serialises; vm_compute; reflexivity]).
  assert (Ha : alive s = true) by (rewrite Hs; reflexivity).
  assert (Ht : JSON_stringify (Runtime:=node) 2
                 (listing_envelope (bump_totalRequests (store s))) = Throw RangeError)
    by (rewrite Hs; vm_compute; reflexivity).
  pose proof (unserialisable_listing_ends_process (rt:=node) s _ Ha Ht) as Hs'.
  fold s' in Hs'. rewrite Hs'. split; [exact Ha|]. split.
  - rewrite Hs. eexists. split; [reflexivity|]. split; reflexivity.
  - split; [reflexivity|]. rewrite Hs. eexists. split; [reflexivity|]. split; reflexivity.
Defined.

(** ** Numbers beyond the doubles *)

(** X22: what is echoed is what [JSON.parse] returned, not the text that
    was submitted.  With the builtins of [Builtins], the body [1e400]
    parses to [Infinity]; the item is stored as [numeric] with that
    value, [JSON.stringify] writes it as [null], both in the reply 201
    and in the listing, and [null] read back is not a number. *)
Theorem number_beyond_doubles_is_echoed_as_null :
  let s := run (rt:=node) boot
             [Request POST_json; DataEvent 0 (bytes_of "1e400"); EndEvent 0 timestamp;
              Request GET_json] in
  let it := stored_item timestamp 0 (JNumber (infinite false)) in
  items (store s) = [it] /\
  item_type it = js "numeric" /\
  numericItems (stats (store s)) = 1 /\
  alive s = true /\
  (exists e g, exchanges s = [e; g] /\
               ended (res e) = [Some (stored_envelope it)] /\
               ended (res g) = [Some (listing_envelope (store s))]) /\
  JSON_stringify (Runtime:=node) 0 (item_data it) = Normal (js "null") /\
  JSON_parse (Runtime:=node) (js "null") = Normal JNull /\
  (exists before after,
     JSON_stringify (Runtime:=node) 2 (stored_envelope it) =
     Normal (before ++ quote (js "data") ++ js ": null," ++ after)) /\
  (exists before after,
     JSON_stringify (Runtime:=node) 2 (listing_envelope (store s)) =
     Normal (before ++ quote (js "data") ++ js ": null," ++ after)).
Proof.
  cbv zeta.
  split; [vm_compute; reflexivity|]. split; [reflexivity|].
  split; [vm_compute; reflexivity|]. split; [vm_compute; reflexivity|].
  split; [eexists; eexists; vm_compute; repeat split|].
  split; [vm_compute; reflexivity|]. split; [vm_compute; reflexivity|].
  split.
  - match goal with
    | |- exists b a, ?t = _ =>
        let v := eval vm_compute in t in
        match v with
        | Normal ?text =>
            exists (firstn 133 text), (skipn 146 text)
        end
    end.
    vm_compute. reflexivity.
  - match goal with
    | |- exists b a, ?t = _ =>
        let v := eval vm_compute in t in
        match v with
        | Normal ?text =>
            exists (firstn 165 text), (skipn 178 text)
        end
    end.
    vm_compute. reflexivity.
Qed.
